(** * tick_taker.py: the quote tracker, the trade handler and the position
    ledger of the example "HFT-ish" strategy, embedded in Rocq.

    The Python program keeps two pieces of mutable state: a [Quote] object
    (a dictionary from symbol to a per-symbol dictionary) and a [Position]
    object (share counters plus a dictionary from order id to the amount
    filled so far).  Three handlers mutate them: [Quote.update] on a quote,
    [on_trade] on a trade print and [on_trade_updates] on an order update.

    Conventions of the embedding.
    - Python dictionaries are objects with identity: the per-symbol
      dictionaries live in a [store] indexed by locations, and
      [symbol_dict] maps a symbol to the location of its dictionary.
    - Prices are Python numbers (floats from the feed, the int [0] of the
      defaults).  Their arithmetic is kept abstract in the class [Number],
      so every theorem holds for whatever [-], [round] and [==] compute;
      a decimal fixed-point instance is used to run the code on examples.
    - Share counts, sizes and the level counter are Python ints: [Z].
    - Timestamps are nanoseconds since the epoch: [Z].  The default
      ['time': 0] is never compared with a timestamp: [on_trade] returns
      before the comparison while ['traded'] is set, and only a level
      change, which stores the quote's timestamp, clears it.
    - [print] and the two gateway calls are recorded in a list of effects.
    - A raised exception is a value carrying the state at the raise. *)

From Stdlib Require Import ZArith Bool Lia Sorted.
From stdpp Require Import base option gmap strings list fin_maps.

Open Scope Z_scope.

(** ** Numbers *)

(** The operations on prices that the program uses.  [n_round k x] is
    [round(x, k)], [n_cent] the literal [.01], [n_zero] the literal [0]. *)
Class Number (num : Type) := {
  n_zero : num;
  n_cent : num;
  n_eqb : num -> num -> bool;
  n_sub : num -> num -> num;
  n_round : Z -> num -> num
}.

(** Order side: [data.order['side']] and the [side=] argument. *)
Inductive side := Buy | Sell.

(** [data.event] of an order update; the handler has no branch for the
    remaining event names ([new], [expired], ...). *)
Inductive event_kind := Fill | PartialFill | Canceled | Rejected | OtherEvent.

(** Exceptions the handlers can raise. *)
Inductive exn := KeyError (key : string).

(** The outcome of a statement sequence that may raise: the state is the one
    reached when the sequence ended or when the exception left it. *)
Inductive result (St : Type) :=
| Ok (s : St)
| Raise (e : exn) (s : St).
Arguments Ok {St} s.
Arguments Raise {St} e s.

(** An order update: [data.event] and the fields of [data.order] that the
    handler reads ([filled_qty] already converted by [int]). *)
Record OrderUpdate := {
  event : event_kind;
  ou_id : string;
  ou_side : side;
  filled_qty : Z
}.

(** ** Position *)

(** The [Position] object. *)
Record Position := {
  orders_filled_amount : gmap string Z;
  pending_buy_shares : Z;
  pending_sell_shares : Z;
  total_shares : Z
}.

(** [Position.__init__]. *)
Definition Position_init : Position :=
  {| orders_filled_amount := ∅; pending_buy_shares := 0;
     pending_sell_shares := 0; total_shares := 0 |}.

(** [Position.update_pending_buy_shares]. *)
Definition update_pending_buy_shares (quantity : Z) (p : Position) : Position :=
  {| orders_filled_amount := orders_filled_amount p;
     pending_buy_shares := pending_buy_shares p + quantity;
     pending_sell_shares := pending_sell_shares p;
     total_shares := total_shares p |}.

(** [Position.update_pending_sell_shares]. *)
Definition update_pending_sell_shares (quantity : Z) (p : Position) : Position :=
  {| orders_filled_amount := orders_filled_amount p;
     pending_buy_shares := pending_buy_shares p;
     pending_sell_shares := pending_sell_shares p + quantity;
     total_shares := total_shares p |}.

(** [Position.update_total_shares]. *)
Definition update_total_shares (quantity : Z) (p : Position) : Position :=
  {| orders_filled_amount := orders_filled_amount p;
     pending_buy_shares := pending_buy_shares p;
     pending_sell_shares := pending_sell_shares p;
     total_shares := total_shares p + quantity |}.

(** Assignment and [del] on [self.orders_filled_amount]. *)
Definition with_orders (m : gmap string Z) (p : Position) : Position :=
  {| orders_filled_amount := m;
     pending_buy_shares := pending_buy_shares p;
     pending_sell_shares := pending_sell_shares p;
     total_shares := total_shares p |}.

(** [Position.update_filled_amount]: the subscript raises [KeyError] for an
    order id that is not a key. *)
Definition update_filled_amount (p : Position) (order_id : string)
    (new_amount : Z) (sd : side) : result Position :=
  match orders_filled_amount p !! order_id with
  | None => Raise (KeyError order_id) p
  | Some old_amount =>
      if new_amount >? old_amount then
        let p :=
          match sd with
          | Buy =>
              let p := update_pending_buy_shares (old_amount - new_amount) p in
              update_total_shares (new_amount - old_amount) p
          | Sell =>
              let p := update_pending_sell_shares (old_amount - new_amount) p in
              update_total_shares (old_amount - new_amount) p
          end in
        Ok (with_orders (<[order_id := new_amount]> (orders_filled_amount p)) p)
      else Ok p
  end.

(** [Position.remove_pending_order]. *)
Definition remove_pending_order (p : Position) (order_id : string) (sd : side)
  : result Position :=
  match orders_filled_amount p !! order_id with
  | None => Raise (KeyError order_id) p
  | Some old_amount =>
      let p :=
        match sd with
        | Buy => update_pending_buy_shares (old_amount - 100) p
        | Sell => update_pending_sell_shares (old_amount - 100) p
        end in
      Ok (with_orders (delete order_id (orders_filled_amount p)) p)
  end.

(** The two statements of [on_trade] that enter a submitted order into the
    ledger: [position.update_pending_buy_shares(100)] (or the sell
    counterpart) and [position.orders_filled_amount[o.id] = 0]. *)
Definition register_order (sd : side) (id : string) (p : Position) : Position :=
  let p :=
    match sd with
    | Buy => update_pending_buy_shares 100 p
    | Sell => update_pending_sell_shares 100 p
    end in
  with_orders (<[id := 0]> (orders_filled_amount p)) p.

(** [on_trade_updates]. *)
Definition on_trade_updates (p : Position) (data : OrderUpdate)
  : result Position :=
  match event data with
  | Fill =>
      let p :=
        match ou_side data with
        | Buy => update_total_shares (filled_qty data) p
        | Sell => update_total_shares (-1 * filled_qty data) p
        end in
      remove_pending_order p (ou_id data) (ou_side data)
  | PartialFill =>
      update_filled_amount p (ou_id data) (filled_qty data) (ou_side data)
  | Canceled | Rejected =>
      remove_pending_order p (ou_id data) (ou_side data)
  | OtherEvent => Ok p
  end.

(** A run of [on_trade_updates] over consecutive order updates; an exception
    ends the run. *)
Fixpoint on_trade_updates_seq (p : Position) (l : list OrderUpdate)
  : result Position :=
  match l with
  | [] => Ok p
  | data :: l =>
      match on_trade_updates p data with
      | Ok p => on_trade_updates_seq p l
      | Raise e p => Raise e p
      end
  end.

(** The pending counter of a side. *)
Definition pending (sd : side) (p : Position) : Z :=
  match sd with
  | Buy => pending_buy_shares p
  | Sell => pending_sell_shares p
  end.

(** The other side. *)
Definition opposite (sd : side) : side :=
  match sd with Buy => Sell | Sell => Buy end.

(** The signed share count that a fill of [n] shares adds to
    [total_shares]. *)
Definition signed (sd : side) (n : Z) : Z :=
  match sd with Buy => n | Sell => - n end.

(** A [partial_fill] update of an order. *)
Definition partial_fill (id : string) (sd : side) (n : Z) : OrderUpdate :=
  {| event := PartialFill; ou_id := id; ou_side := sd; filled_qty := n |}.

(** The events that end an order. *)
Definition terminal (k : event_kind) : Prop :=
  k = Fill \/ k = Canceled \/ k = Rejected.

(** The ledger on which a fill after a partial fill is evaluated: a buy order ["o1"] entered by [register_order] and partly
    filled with 40 shares. *)
Definition ledger_after_partial : Position :=
  match on_trade_updates (register_order Buy "o1" Position_init)
          (partial_fill "o1" Buy 40) with
  | Ok p => p
  | Raise _ p => p
  end.

(** The amount recorded for an order after partial fills that report the
    amounts [qs], when [f] was recorded before: [update_filled_amount]
    stores a reported amount only if it exceeds the recorded one. *)
Definition recorded (qs : list Z) (f : Z) : Z := fold_left Z.max qs f.

(** ** The options of [run] *)

(** The fields of [args] that [run] reads for the connection and the cap:
    [--key-id], [--secret-key] and [--base-url] are strings or [None],
    [--quantity] is an int. *)
Record Args := {
  quantity : Z;
  key_id : option string;
  secret_key : option string;
  base_url : option string
}.

(** Truth value of an optional string in an [if]: [None] and the empty
    string are false. *)
Definition truthy (v : option string) : bool :=
  match v with
  | Some s => negb (String.eqb s "")
  | None => false
  end.

(** [if v: opts[key] = v]. *)
Definition set_if_truthy (key : string) (v : option string)
    (opts : gmap string string) : gmap string string :=
  match v with
  | Some s => if truthy v then <[key := s]> opts else opts
  | None => opts
  end.

Definition paper_url : string := "https://paper-api.alpaca.markets".

(** The dictionary [opts] that [run] passes to [tradeapi.REST] and
    [tradeapi.StreamConn]. *)
Definition run_opts (args : Args) : gmap string string :=
  let opts : gmap string string := ∅ in
  let opts := set_if_truthy "key_id" (key_id args) opts in
  let opts := set_if_truthy "secret_key" (secret_key args) opts in
  if truthy (base_url args) then set_if_truthy "base_url" (base_url args) opts
  else
    match opts !! "key_id" with
    | Some k =>
        if String.prefix "PK" k then <["base_url" := paper_url]> opts else opts
    | None => opts
    end.

(** [bid_size > ask_size * 1.8] on two ints.  The product is a float and the
    comparison of an int with a float is exact; for sizes from 0 up to 2^50
    the outcome is that of the comparison of [10 * a] with [18 * b] on
    integers, which is what is computed here.  From about 2^50 on the
    rounding of the product can decide otherwise, so every statement that
    depends on the outcome of this test takes the sizes in that range. *)
Definition gt_times_1_8 (a b : Z) : bool := 18 * b <? 10 * a.

(** [pd.Timedelta(np.timedelta64(50, 'ms'))] in nanoseconds. *)
Definition debounce : Z := 50000000.

Abbreviation loc := positive.

Section Definitions.
Context {num : Type} `{!Number num}.

(** ** Messages *)

(** A quote message: [data.symbol], [data.bidprice], [data.askprice],
    [data.bidsize], [data.asksize], [data.timestamp]. *)
Record QuoteData := {
  qd_symbol : string;
  bidprice : num;
  askprice : num;
  bidsize : Z;
  asksize : Z;
  qd_timestamp : Z
}.

(** A trade message: [data.symbol], [data.price], [data.size],
    [data.timestamp]. *)
Record TradeData := {
  td_symbol : string;
  td_price : num;
  td_size : Z;
  td_timestamp : Z
}.

(** What the handlers do to the outside world. *)
Inductive effect :=
| PrintLevel (symbol : string) (pb pa ps b a s : num)
| SubmitOrder (symbol : string) (sd : side) (qty : Z) (limit_price : num)
| CancelOrder (id : string)
| PrintOrder (sd : side) (symbol : string) (p : num)
| PrintExn.

(** The answers of the gateway: [submit_order] returns the new order's id or
    raises ([None]); [cancel_order] returns or raises ([false]). *)
Record Api := {
  submit_order : string -> side -> num -> option string;
  cancel_order : string -> bool
}.

(** ** Quote *)

(** One per-symbol dictionary; the keys are those of [default_dict]. *)
Record SymDict := {
  prev_bid : num;
  prev_ask : num;
  prev_spread : num;
  bid : num;
  ask : num;
  bid_size : Z;
  ask_size : Z;
  spread : num;
  traded : bool;
  level_ct : Z;
  time : Z
}.

Definition set_prev_bid (v : num) (d : SymDict) : SymDict :=
  {| prev_bid := v; prev_ask := prev_ask d; prev_spread := prev_spread d;
     bid := bid d; ask := ask d; bid_size := bid_size d;
     ask_size := ask_size d; spread := spread d; traded := traded d;
     level_ct := level_ct d; time := time d |}.

Definition set_prev_ask (v : num) (d : SymDict) : SymDict :=
  {| prev_bid := prev_bid d; prev_ask := v; prev_spread := prev_spread d;
     bid := bid d; ask := ask d; bid_size := bid_size d;
     ask_size := ask_size d; spread := spread d; traded := traded d;
     level_ct := level_ct d; time := time d |}.

Definition set_prev_spread (v : num) (d : SymDict) : SymDict :=
  {| prev_bid := prev_bid d; prev_ask := prev_ask d; prev_spread := v;
     bid := bid d; ask := ask d; bid_size := bid_size d;
     ask_size := ask_size d; spread := spread d; traded := traded d;
     level_ct := level_ct d; time := time d |}.

Definition set_bid (v : num) (d : SymDict) : SymDict :=
  {| prev_bid := prev_bid d; prev_ask := prev_ask d;
     prev_spread := prev_spread d;
     bid := v; ask := ask d; bid_size := bid_size d;
     ask_size := ask_size d; spread := spread d; traded := traded d;
     level_ct := level_ct d; time := time d |}.

Definition set_ask (v : num) (d : SymDict) : SymDict :=
  {| prev_bid := prev_bid d; prev_ask := prev_ask d;
     prev_spread := prev_spread d;
     bid := bid d; ask := v; bid_size := bid_size d;
     ask_size := ask_size d; spread := spread d; traded := traded d;
     level_ct := level_ct d; time := time d |}.

Definition set_bid_size (v : Z) (d : SymDict) : SymDict :=
  {| prev_bid := prev_bid d; prev_ask := prev_ask d;
     prev_spread := prev_spread d;
     bid := bid d; ask := ask d; bid_size := v;
     ask_size := ask_size d; spread := spread d; traded := traded d;
     level_ct := level_ct d; time := time d |}.

Definition set_ask_size (v : Z) (d : SymDict) : SymDict :=
  {| prev_bid := prev_bid d; prev_ask := prev_ask d;
     prev_spread := prev_spread d;
     bid := bid d; ask := ask d; bid_size := bid_size d;
     ask_size := v; spread := spread d; traded := traded d;
     level_ct := level_ct d; time := time d |}.

Definition set_spread (v : num) (d : SymDict) : SymDict :=
  {| prev_bid := prev_bid d; prev_ask := prev_ask d;
     prev_spread := prev_spread d;
     bid := bid d; ask := ask d; bid_size := bid_size d;
     ask_size := ask_size d; spread := v; traded := traded d;
     level_ct := level_ct d; time := time d |}.

Definition set_traded (v : bool) (d : SymDict) : SymDict :=
  {| prev_bid := prev_bid d; prev_ask := prev_ask d;
     prev_spread := prev_spread d;
     bid := bid d; ask := ask d; bid_size := bid_size d;
     ask_size := ask_size d; spread := spread d; traded := v;
     level_ct := level_ct d; time := time d |}.

Definition set_level_ct (v : Z) (d : SymDict) : SymDict :=
  {| prev_bid := prev_bid d; prev_ask := prev_ask d;
     prev_spread := prev_spread d;
     bid := bid d; ask := ask d; bid_size := bid_size d;
     ask_size := ask_size d; spread := spread d; traded := traded d;
     level_ct := v; time := time d |}.

Definition set_time (v : Z) (d : SymDict) : SymDict :=
  {| prev_bid := prev_bid d; prev_ask := prev_ask d;
     prev_spread := prev_spread d;
     bid := bid d; ask := ask d; bid_size := bid_size d;
     ask_size := ask_size d; spread := spread d; traded := traded d;
     level_ct := level_ct d; time := v |}.

(** The [Quote] object: [symbol_dict] holds references, [default_dict] is
    the reference to the dictionary built by [__init__]. *)
Record Quote := {
  symbol_dict : gmap string loc;
  default_dict : loc;
  store : gmap loc SymDict
}.

(** The literal dictionary of [Quote.__init__]. *)
Definition default_values : SymDict :=
  {| prev_bid := n_zero; prev_ask := n_zero; prev_spread := n_zero;
     bid := n_zero; ask := n_zero; bid_size := 0; ask_size := 0;
     spread := n_zero; traded := true; level_ct := 1; time := 0 |}.

(** [Quote.__init__]: an empty [symbol_dict] and one allocated dictionary. *)
Definition Quote_init : Quote :=
  {| symbol_dict := ∅;
     default_dict := 1%positive;
     store := {[ 1%positive := default_values ]} |}.

Definition with_symbol_dict (m : gmap string loc) (q : Quote) : Quote :=
  {| symbol_dict := m; default_dict := default_dict q; store := store q |}.

Definition with_store (h : gmap loc SymDict) (q : Quote) : Quote :=
  {| symbol_dict := symbol_dict q; default_dict := default_dict q;
     store := h |}.

(** [Quote.get_symbol_dict]: the symbol's dictionary if it has one;
    otherwise [self.default_dict] itself is stored under the symbol and
    returned.  The result is a reference. *)
Definition get_symbol_dict (q : Quote) (symbol : string) : loc * Quote :=
  match symbol_dict q !! symbol with
  | Some l => (l, q)
  | None =>
      let return_dict := default_dict q in
      (return_dict, with_symbol_dict (<[symbol := return_dict]> (symbol_dict q)) q)
  end.

(** [Quote.update_symbol_dict]: [self.symbol_dict[symbol].update(update_dict)].
    [dict.update] copies every key of the argument into the target; all
    dictionaries here have the same keys.  [symbol_dict] is a
    [defaultdict(dict)], so a missing symbol would get a new dictionary. *)
Definition update_symbol_dict (q : Quote) (symbol : string) (update_dict : loc)
  : option Quote :=
  d ← store q !! update_dict;
  match symbol_dict q !! symbol with
  | Some l => Some (with_store (<[l := d]> (store q)) q)
  | None =>
      let l := fresh (dom (store q)) in
      Some {| symbol_dict := <[symbol := l]> (symbol_dict q);
              default_dict := default_dict q;
              store := <[l := d]> (store q) |}
  end.

(** [Quote.reset_dict]. *)
Definition reset_dict (d : SymDict) : SymDict :=
  let d := set_traded false d in
  set_level_ct (level_ct d + 1) d.

(** The condition of the [if] in [Quote.update]. *)
Definition level_change (d : SymDict) (data : QuoteData) : bool :=
  negb (n_eqb (bid d) (bidprice data))
  && negb (n_eqb (ask d) (askprice data))
  && n_eqb (n_round 2 (n_sub (askprice data) (bidprice data))) n_cent.

(** The body of the [if] in [Quote.update], applied to the dictionary. *)
Definition on_level_change (symbol : string) (d : SymDict) (data : QuoteData)
  : SymDict * list effect :=
  let d := set_prev_bid (bid d) d in
  let d := set_prev_ask (ask d) d in
  let d := set_bid (bidprice data) d in
  let d := set_ask (askprice data) d in
  let d := set_time (qd_timestamp data) d in
  let d := set_prev_spread (n_round 3 (n_sub (prev_ask d) (prev_bid d))) d in
  let d := set_spread (n_round 3 (n_sub (ask d) (bid d))) d in
  let out := [PrintLevel symbol (prev_bid d) (prev_ask d) (prev_spread d)
                (bid d) (ask d) (spread d)] in
  if n_eqb (prev_spread d) n_cent then (reset_dict d, out) else (d, out).

(** [Quote.update].  [None] only if a reference dangles, which never
    happens in a state built by the program (see [wf]). *)
Definition update (q : Quote) (data : QuoteData) : option (Quote * list effect) :=
  let symbol := qd_symbol data in
  let '(l, q) := get_symbol_dict q symbol in
  d ← store q !! l;
  let d := set_bid_size (bidsize data) d in
  let d := set_ask_size (asksize data) d in
  let '(d, out) :=
    if level_change d data then on_level_change symbol d data else (d, []) in
  q ← update_symbol_dict (with_store (<[l := d]> (store q)) q) symbol l;
  Some (q, out).

(** ** The handlers of [run] *)

(** The state that the closures of [run] share. *)
Record State := {
  quote : Quote;
  position : Position
}.

(** The first condition of [on_trade]: follow the trade with a buy. *)
Definition buy_signal (max_shares : Z) (d : SymDict) (p : Position)
    (data : TradeData) : bool :=
  n_eqb (td_price data) (ask d)
  && gt_times_1_8 (bid_size d) (ask_size d)
  && (total_shares p + pending_buy_shares p <? max_shares - 100).

(** The [elif] condition of [on_trade]: follow the trade with a sell. *)
Definition sell_signal (d : SymDict) (p : Position) (data : TradeData) : bool :=
  n_eqb (td_price data) (bid d)
  && gt_times_1_8 (ask_size d) (bid_size d)
  && (100 <=? total_shares p - pending_sell_shares p).

(** The [try] block of [on_trade] (the buy block and the sell block differ
    in the side, the price and the pending counter only).  [l] is the
    dictionary [quote.symbol_dict[symbol]] and [d] its contents.  An
    exception of either gateway call skips the rest of the block and is
    printed by the handler. *)
Definition try_order (api : Api) (st : State) (symbol : string) (l : loc)
    (d : SymDict) (sd : side) (limit_price : num) : State * list effect :=
  let submit := SubmitOrder symbol sd 100 limit_price in
  match submit_order api symbol sd limit_price with
  | None => (st, [submit; PrintExn])
  | Some id =>
      if cancel_order api id then
        let p := register_order sd id (position st) in
        let q := with_store (<[l := set_traded true d]> (store (quote st)))
                   (quote st) in
        ({| quote := q; position := p |},
         [submit; CancelOrder id; PrintOrder sd symbol limit_price])
      else (st, [submit; CancelOrder id; PrintExn])
  end.

(** [on_trade], with [max_shares] and [api] of the enclosing [run]. *)
Definition on_trade (max_shares : Z) (api : Api) (st : State)
    (data : TradeData) : option (State * list effect) :=
  let symbol := td_symbol data in
  let '(l, q) := get_symbol_dict (quote st) symbol in
  let st := {| quote := q; position := position st |} in
  d ← store q !! l;
  if traded d then Some (st, [])
  else if td_timestamp data <=? time d + debounce then Some (st, [])
  else if 100 <=? td_size data then
    if buy_signal max_shares d (position st) data then
      Some (try_order api st symbol l d Buy (ask d))
    else if sell_signal d (position st) data then
      Some (try_order api st symbol l d Sell (bid d))
    else Some (st, [])
  else Some (st, []).

(** [on_quote]. *)
Definition on_quote (st : State) (data : QuoteData)
  : option (State * list effect) :=
  '(q, out) ← update (quote st) data;
  Some ({| quote := q; position := position st |}, out).

(** The state of [run] before the first message. *)
Definition State_init : State :=
  {| quote := Quote_init; position := Position_init |}.

(** The reference that [get_symbol_dict] returns for a symbol. *)
Definition ref_of (q : Quote) (symbol : string) : loc :=
  default (default_dict q) (symbol_dict q !! symbol).

(** The dictionary that the handlers read for a symbol: the contents of the
    object that [get_symbol_dict] returns. *)
Definition dict_of (q : Quote) (symbol : string) : option SymDict :=
  store q !! ref_of q symbol.

(** The spec's [eligible] flag of a symbol is the negation of the key
    ['traded'] that [on_trade] reads for it. *)
Definition eligible (q : Quote) (symbol : string) : option bool :=
  negb ∘ traded <$> dict_of q symbol.

(** The orders that a handler run has submitted. *)
Definition is_submit (sd : side) (e : effect) : bool :=
  match e, sd with
  | SubmitOrder _ Buy _ _, Buy => true
  | SubmitOrder _ Sell _ _, Sell => true
  | _, _ => false
  end.

Definition submits (out : list effect) : list effect :=
  List.filter (fun e => is_submit Buy e || is_submit Sell e) out.

(** The state that [on_trade] leaves when it submits nothing: the symbol is
    registered by [get_symbol_dict], nothing else has changed. *)
Definition registered (st : State) (symbol : string) : State :=
  {| quote := with_symbol_dict
                (<[symbol := ref_of (quote st) symbol]> (symbol_dict (quote st)))
                (quote st);
     position := position st |}.

(** Whether a run has submitted an order of the given side. *)
Definition attempted (sd : side) (out : list effect) : Prop :=
  existsb (is_submit sd) out = true.

(** ** All symbols in one run *)

(** A message of the stream, with the answers the gateway gives while it is
    handled. *)
Inductive message :=
| OnQuote (data : QuoteData)
| OnTrade (api : Api) (data : TradeData)
| OnTradeUpdates (data : OrderUpdate).

(** One message handled by the handler registered for it.  An exception
    that leaves [on_trade_updates] ends that handler; the state is the one
    at the raise. *)
Definition dispatch (max_shares : Z) (st : State) (m : message)
  : option (State * list effect) :=
  match m with
  | OnQuote data => on_quote st data
  | OnTrade api data => on_trade max_shares api st data
  | OnTradeUpdates data =>
      let p := match on_trade_updates (position st) data with
               | Ok p => p
               | Raise _ p => p
               end in
      Some ({| quote := quote st; position := p |}, [])
  end.

(** Every symbol refers to the dictionary created by [__init__]. *)
Definition all_alias (q : Quote) : Prop :=
  forall s l, symbol_dict q !! s = Some l -> l = default_dict q.

(** A run of the dispatcher over consecutive messages, with the printed
    and submitted effects in order. *)
Fixpoint run (max_shares : Z) (st : State) (ms : list message)
  : option (State * list effect) :=
  match ms with
  | [] => Some (st, [])
  | m :: ms =>
      '(st, out) ← dispatch max_shares st m;
      '(st, out') ← run max_shares st ms;
      Some (st, out ++ out')
  end.

(** Whether a message is a quote. *)
Definition is_quote (m : message) : bool :=
  match m with
  | OnQuote _ => true
  | _ => false
  end.

(** The tracker holds one dictionary object, the one of [__init__], and
    every registered symbol refers to it. *)
Definition one_dict (q : Quote) : Prop :=
  all_alias q /\ dom (store q) = {[ default_dict q ]}.

End Definitions.

Arguments QuoteData : clear implicits.
Arguments TradeData : clear implicits.
Arguments effect : clear implicits.
Arguments Api : clear implicits.
Arguments SymDict : clear implicits.
Arguments Quote : clear implicits.
Arguments State : clear implicits.
Arguments message : clear implicits.

(** ** A decimal instance of [Number]

    Prices counted in ten-thousandths of a dollar, with exact subtraction
    and [round] to [k] decimals, ties to even, as Python's [round] does on a
    decimal value. *)

Definition round_to_multiple (m x : Z) : Z :=
  let q := x / m in
  let r := x mod m in
  if 2 * r <? m then q * m
  else if m <? 2 * r then (q + 1) * m
  else if Z.even q then q * m else (q + 1) * m.

Definition dec_round (k x : Z) : Z :=
  if 4 <=? k then x else round_to_multiple (10 ^ (4 - k)) x.

#[export] Instance decimal : Number Z := {|
  n_zero := 0;
  n_cent := 100;
  n_eqb := Z.eqb;
  n_sub := Z.sub;
  n_round := dec_round
|}.

(** ** The messages of the examples *)

(** Milliseconds as a timestamp. *)
Definition msec (n : Z) : Z := n * 1000000.

(** Dollars and cents as a price of the decimal instance. *)
Definition usd (dollars cents : Z) : Z := dollars * 10000 + cents * 100.

(** B is quoted 20.00/20.05, five cents wide: no level change. *)
Definition quote_B : QuoteData Z :=
  {| qd_symbol := "B"; bidprice := usd 20 0; askprice := usd 20 5;
     bidsize := 500; asksize := 500; qd_timestamp := msec 1000 |}.

(** A is quoted 9.99/10.00 and then 10.00/10.01. *)
Definition quote_A1 : QuoteData Z :=
  {| qd_symbol := "A"; bidprice := usd 9 99; askprice := usd 10 0;
     bidsize := 300; asksize := 100; qd_timestamp := msec 2000 |}.

Definition quote_A2 : QuoteData Z :=
  {| qd_symbol := "A"; bidprice := usd 10 0; askprice := usd 10 1;
     bidsize := 300; asksize := 100; qd_timestamp := msec 3000 |}.

(** 150 shares of A trade at the ask, 60ms after the level change. *)
Definition trade_A : TradeData Z :=
  {| td_symbol := "A"; td_price := usd 10 1; td_size := 150;
     td_timestamp := msec 3060 |}.

(** A trade of a symbol that has not been quoted yet. *)
Definition trade_SNAP : TradeData Z :=
  {| td_symbol := "SNAP"; td_price := usd 10 1; td_size := 150;
     td_timestamp := msec 60 |}.

(** A gateway that accepts the order and the cancel. *)
Definition api_ok : Api Z :=
  {| submit_order := fun _ _ _ => Some "o1"; cancel_order := fun _ => true |}.

(** A gateway that accepts the order and fails the cancel. *)
Definition api_cancel_fails : Api Z :=
  {| submit_order := fun _ _ _ => Some "o1"; cancel_order := fun _ => false |}.

(** The state after the three quotes, with [--quantity 500]. *)
Definition state_after_quotes : State Z :=
  match run 500 State_init [OnQuote quote_B; OnQuote quote_A1; OnQuote quote_A2] with
  | Some (st, _) => st
  | None => State_init
  end.

(** The dictionary that every symbol reads in [state_after_quotes]. *)
Definition dict_after_quotes : SymDict Z :=
  {| prev_bid := usd 9 99; prev_ask := usd 10 0; prev_spread := 100;
     bid := usd 10 0; ask := usd 10 1; bid_size := 300; ask_size := 100;
     spread := 100; traded := false; level_ct := 2; time := msec 3000 |}.

(** * The position ledger *)

Lemma update_filled_amount_Some p id old new sd :
  orders_filled_amount p !! id = Some old ->
  update_filled_amount p id new sd =
    if new >? old then
      Ok {| orders_filled_amount := <[id := new]> (orders_filled_amount p);
            pending_buy_shares :=
              match sd with
              | Buy => pending_buy_shares p + (old - new)
              | Sell => pending_buy_shares p
              end;
            pending_sell_shares :=
              match sd with
              | Buy => pending_sell_shares p
              | Sell => pending_sell_shares p + (old - new)
              end;
            total_shares := total_shares p + signed sd (new - old) |}
    else Ok p.
Proof.
  intros Hreg. unfold update_filled_amount. rewrite Hreg.
  destruct (new >? old); [|reflexivity].
  destruct sd; cbn; unfold with_orders; cbn; do 2 f_equal; lia.
Qed.

Lemma remove_pending_order_Some p id old sd :
  orders_filled_amount p !! id = Some old ->
  remove_pending_order p id sd =
    Ok {| orders_filled_amount := delete id (orders_filled_amount p);
          pending_buy_shares :=
            match sd with
            | Buy => pending_buy_shares p + (old - 100)
            | Sell => pending_buy_shares p
            end;
          pending_sell_shares :=
            match sd with
            | Buy => pending_sell_shares p
            | Sell => pending_sell_shares p + (old - 100)
            end;
          total_shares := total_shares p |}.
Proof.
  intros Hreg. unfold remove_pending_order. rewrite Hreg.
  destruct sd; reflexivity.
Qed.

(** C7, as stated, fails: a fill that follows a partial fill of 40 shares
    takes 60 shares, not 100, off the pending counter. *)
Lemma C7_fill_after_partial_fill :
  let p := ledger_after_partial in
  let data := {| event := Fill; ou_id := "o1"; ou_side := Buy;
                 filled_qty := 100 |} in
  orders_filled_amount p !! "o1" = Some 40 /\
  pending_buy_shares p = 60 /\
  exists p', on_trade_updates p data = Ok p' /\
             pending_buy_shares p' = 0 /\
             pending_buy_shares p' <> pending_buy_shares p - 100.
Proof.
  cbv zeta. split; [reflexivity|]. split; [reflexivity|].
  eexists. split; [reflexivity|]. split; [reflexivity|]. vm_compute. discriminate.
Qed.

(** What a [fill] does to a registered order, in terms of [pending]. *)
Lemma fill_registered (p : Position) (id : string) (sd : side) (old qty : Z) :
  orders_filled_amount p !! id = Some old ->
  exists p',
    on_trade_updates p
      {| event := Fill; ou_id := id; ou_side := sd; filled_qty := qty |}
      = Ok p' /\
    pending sd p' = pending sd p + (old - 100) /\
    pending (opposite sd) p' = pending (opposite sd) p /\
    orders_filled_amount p' !! id = None.
Proof.
  intros Hreg. unfold on_trade_updates; cbn [event ou_id ou_side filled_qty].
  eexists. split.
  - apply remove_pending_order_Some. destruct sd; exact Hreg.
  - destruct sd; cbn; repeat split; apply lookup_delete_eq.
Qed.

(** C7, amended: a [fill] of a registered order adds [filled_qty] to
    [total_shares] for a buy and subtracts it for a sell, takes 100 minus the
    amount recorded as filled so far off the pending counter of the order's
    side (100 when no partial fill was recorded), leaves the other pending
    counter alone and deletes the order's ledger entry. *)
Theorem C7_fill (p : Position) (id : string) (sd : side) (old qty : Z)
    (Hreg : orders_filled_amount p !! id = Some old) :
  exists p',
    on_trade_updates p
      {| event := Fill; ou_id := id; ou_side := sd; filled_qty := qty |}
      = Ok p' /\
    total_shares p' = total_shares p + signed sd qty /\
    pending sd p' = pending sd p - (100 - old) /\
    (old = 0 -> pending sd p' = pending sd p - 100) /\
    pending (opposite sd) p' = pending (opposite sd) p /\
    orders_filled_amount p' = delete id (orders_filled_amount p) /\
    orders_filled_amount p' !! id = None.
Proof.
  unfold on_trade_updates; cbn [event ou_id ou_side filled_qty].
  eexists. split.
  - apply remove_pending_order_Some. destruct sd; exact Hreg.
  - destruct sd; cbn; repeat split; try lia; apply lookup_delete_eq.
Qed.

Lemma C7_fill_witness :
  exists p',
    on_trade_updates ledger_after_partial
      {| event := Fill; ou_id := "o1"; ou_side := Buy; filled_qty := 100 |}
      = Ok p' /\
    total_shares p' = 140 /\ pending_buy_shares p' = 0.
Proof.
  destruct (C7_fill ledger_after_partial "o1" Buy 40 100 eq_refl)
    as (p' & Hrun & Htot & Hpend & _).
  exists p'. split; [exact Hrun|]. split.
  - rewrite Htot. reflexivity.
  - cbn in Hpend. rewrite Hpend. reflexivity.
Defined.

(** C8: a [partial_fill] of a registered order with
    [delta = filled_qty - filled so far].  If [delta > 0], [delta] shares
    leave the pending counter of the order's side and enter [total_shares]
    (added for a buy, subtracted for a sell) and the recorded amount becomes
    [filled_qty]; if [delta <= 0] nothing changes.  Hence the same update
    applied a second time changes nothing (40 then 40), and a later update
    with a larger amount moves the difference only (40 then 70 moves 30). *)
Theorem C8_partial_fill (p : Position) (id : string) (sd : side) (old new : Z)
    (Hreg : orders_filled_amount p !! id = Some old) :
  let delta := new - old in
  (0 < delta ->
   exists p',
     on_trade_updates p (partial_fill id sd new) = Ok p' /\
     total_shares p' = total_shares p + signed sd delta /\
     pending sd p' = pending sd p - delta /\
     pending (opposite sd) p' = pending (opposite sd) p /\
     orders_filled_amount p' = <[id := new]> (orders_filled_amount p) /\
     on_trade_updates p' (partial_fill id sd new) = Ok p' /\
     forall new2, new < new2 ->
       exists p'',
         on_trade_updates p' (partial_fill id sd new2) = Ok p'' /\
         total_shares p'' = total_shares p' + signed sd (new2 - new)) /\
  (delta <= 0 -> on_trade_updates p (partial_fill id sd new) = Ok p).
Proof.
  cbv zeta. unfold on_trade_updates, partial_fill;
    cbn [event ou_id ou_side filled_qty].
  split; intros Hdelta.
  - rewrite (update_filled_amount_Some _ _ _ _ _ Hreg).
    assert (Hgt : (new >? old) = true) by (apply Z.gtb_lt; lia).
    rewrite Hgt. eexists. split; [reflexivity|].
    split; [reflexivity|].
    split; [destruct sd; cbn; lia|].
    split; [destruct sd; reflexivity|].
    split; [reflexivity|].
    split.
    + erewrite update_filled_amount_Some by apply lookup_insert_eq.
      rewrite Z.gtb_ltb, Z.ltb_irrefl. reflexivity.
    + intros new2 Hlt.
      erewrite update_filled_amount_Some by apply lookup_insert_eq.
      assert (Hgt2 : (new2 >? new) = true) by (apply Z.gtb_lt; lia).
      rewrite Hgt2. eexists. split; reflexivity.
  - rewrite (update_filled_amount_Some _ _ _ _ _ Hreg).
    assert (Hle : (new >? old) = false).
    { rewrite Z.gtb_ltb. apply Z.ltb_ge. lia. }
    rewrite Hle. reflexivity.
Qed.

(** The example of C8 run on the code: a buy order registered with nothing
    filled receives the updates 40, 40 and 70. *)
Lemma C8_partial_fill_witness :
  let p0 := register_order Buy "o1" Position_init in
  exists p1 p2,
    on_trade_updates p0 (partial_fill "o1" Buy 40) = Ok p1 /\
    total_shares p1 = 40 /\ pending_buy_shares p1 = 60 /\
    on_trade_updates p1 (partial_fill "o1" Buy 40) = Ok p1 /\
    on_trade_updates p1 (partial_fill "o1" Buy 70) = Ok p2 /\
    total_shares p2 = total_shares p1 + 30.
Proof.
  cbv zeta.
  destruct (C8_partial_fill (register_order Buy "o1" Position_init)
              "o1" Buy 0 40 eq_refl) as [Hpos _].
  destruct (Hpos ltac:(lia)) as (p1 & Hrun & Htot & Hpend & _ & _ & Hdup & Hnext).
  destruct (Hnext 70 ltac:(lia)) as (p2 & Hrun2 & Htot2).
  exists p1, p2.
  split; [exact Hrun|]. split; [exact Htot|]. split; [exact Hpend|].
  split; [exact Hdup|]. split; [exact Hrun2|]. exact Htot2.
Defined.


(** Partial fills keep the sum of a registered order's pending contribution
    and its recorded filled amount: whatever the amounts reported, the
    pending counter of the order's side plus the recorded amount is
    constant, the other counter does not move and the order stays
    registered. *)
Lemma partial_fills_invariant (id : string) (sd : side) (qs : list Z) :
  forall (p : Position) (f : Z),
    orders_filled_amount p !! id = Some f ->
    exists p' f',
      on_trade_updates_seq p (map (partial_fill id sd) qs) = Ok p' /\
      orders_filled_amount p' !! id = Some f' /\
      pending sd p' + f' = pending sd p + f /\
      pending (opposite sd) p' = pending (opposite sd) p.
Proof.
  induction qs as [|n qs IH]; intros p f Hreg.
  - exists p, f. repeat split; [exact Hreg].
  - cbn [map on_trade_updates_seq].
    change (on_trade_updates p (partial_fill id sd n))
      with (update_filled_amount p id n sd).
    rewrite (update_filled_amount_Some _ _ _ _ _ Hreg).
    destruct (n >? f).
    + lazymatch goal with
      | |- context [on_trade_updates_seq ?q _] =>
          destruct (IH q n) as (p' & f' & Hrun & Hreg' & Hsum & Hopp)
      end.
      { cbn. apply lookup_insert_eq. }
      exists p', f'. split; [exact Hrun|]. split; [exact Hreg'|].
      destruct sd; cbn in *; lia.
    + apply IH. exact Hreg.
Qed.

Lemma on_trade_updates_seq_app (l1 l2 : list OrderUpdate) :
  forall p p',
    on_trade_updates_seq p l1 = Ok p' ->
    on_trade_updates_seq p (l1 ++ l2) = on_trade_updates_seq p' l2.
Proof.
  induction l1 as [|d l1 IH]; intros p p' Hrun; cbn in *.
  - congruence.
  - destruct (on_trade_updates p d); [eauto | discriminate].
Qed.

(** C10: an order entered by [register_order] (pending counter of its side
    plus 100, recorded amount 0), then any partial fills with non-decreasing
    amounts between 0 and 100, then one terminal event (fill, canceled or
    rejected): every update is accepted, the pending counter of the side is
    back at its value before the registration, the other counter never
    moved and the order has left the ledger.  The terminal removal takes off
    100 minus the amount filled so far, which is what the partial fills left
    of the order's contribution. *)
Theorem C10_pending_conservation (p : Position) (sd : side) (id : string)
    (qs : list Z) (k : event_kind) (qty : Z)
    (Hterm : terminal k)
    (Hmono : Sorted Z.le qs)
    (Hbound : Forall (fun n => 0 <= n <= 100) qs) :
  exists p',
    on_trade_updates_seq (register_order sd id p)
      (map (partial_fill id sd) qs ++
       [{| event := k; ou_id := id; ou_side := sd; filled_qty := qty |}])
      = Ok p' /\
    pending sd p' = pending sd p /\
    pending (opposite sd) p' = pending (opposite sd) p /\
    orders_filled_amount p' !! id = None.
Proof.
  destruct (partial_fills_invariant id sd qs (register_order sd id p) 0)
    as (p1 & f & Hrun & Hreg & Hsum & Hopp).
  { unfold register_order. cbn. apply lookup_insert_eq. }
  rewrite (on_trade_updates_seq_app _ _ _ _ Hrun).
  cbn [on_trade_updates_seq].
  assert (Hp : pending sd (register_order sd id p) = pending sd p + 100)
    by (destruct sd; reflexivity).
  assert (Ho : pending (opposite sd) (register_order sd id p)
               = pending (opposite sd) p) by (destruct sd; reflexivity).
  destruct Hterm as [-> | [-> | ->]].
  - destruct (fill_registered p1 id sd f qty Hreg) as (p' & -> & H1 & H2 & H3).
    exists p'. repeat split; [lia | congruence | exact H3].
  - unfold on_trade_updates; cbn [event ou_id ou_side].
    rewrite (remove_pending_order_Some _ _ _ _ Hreg).
    eexists. split; [reflexivity|].
    destruct sd; cbn in *; repeat split; try lia; apply lookup_delete_eq.
  - unfold on_trade_updates; cbn [event ou_id ou_side].
    rewrite (remove_pending_order_Some _ _ _ _ Hreg).
    eexists. split; [reflexivity|].
    destruct sd; cbn in *; repeat split; try lia; apply lookup_delete_eq.
Qed.

Lemma C10_pending_conservation_witness :
  exists p',
    on_trade_updates_seq (register_order Sell "o2" ledger_after_partial)
      (map (partial_fill "o2" Sell) [10; 10; 55] ++
       [{| event := Canceled; ou_id := "o2"; ou_side := Sell;
           filled_qty := 55 |}])
      = Ok p' /\
    pending_sell_shares p' = 0.
Proof.
  destruct (C10_pending_conservation ledger_after_partial Sell "o2"
              [10; 10; 55] Canceled 55) as (p' & Hrun & Hpend & _).
  - right. left. reflexivity.
  - repeat constructor; lia.
  - repeat constructor; lia.
  - exists p'. split; [exact Hrun | exact Hpend].
Defined.

(** * The quote tracker and the trade handler *)

Section Handlers.
Context {num : Type} `{!Number num}.

Lemma get_symbol_dict_spec (q : Quote num) (symbol : string) :
  get_symbol_dict q symbol =
    (ref_of q symbol,
     with_symbol_dict (<[symbol := ref_of q symbol]> (symbol_dict q)) q).
Proof.
  unfold get_symbol_dict, ref_of.
  destruct (symbol_dict q !! symbol) as [l|] eqn:Hl; cbn; [|reflexivity].
  rewrite insert_id by exact Hl. destruct q; reflexivity.
Qed.

Lemma get_symbol_dict_registered (q : Quote num) (symbol : string) :
  is_Some (symbol_dict q !! symbol) ->
  get_symbol_dict q symbol = (ref_of q symbol, q).
Proof.
  intros [l Hl]. unfold get_symbol_dict, ref_of. rewrite Hl. reflexivity.
Qed.

(** [update] on a symbol whose dictionary is [d]: the dictionary becomes
    [d'], computed from [d] alone, and the symbol is registered. *)
Lemma update_eq (q : Quote num) (data : QuoteData num) (d : SymDict num) :
  dict_of q (qd_symbol data) = Some d ->
  let l := ref_of q (qd_symbol data) in
  let d0 := set_ask_size (asksize data) (set_bid_size (bidsize data) d) in
  let r := if level_change d0 data
           then on_level_change (qd_symbol data) d0 data else (d0, []) in
  update q data =
    Some ({| symbol_dict := <[qd_symbol data := l]> (symbol_dict q);
             default_dict := default_dict q;
             store := <[l := r.1]> (store q) |}, r.2).
Proof.
  intros Hd. cbv zeta. unfold update.
  rewrite get_symbol_dict_spec. cbn [with_symbol_dict store].
  unfold dict_of in Hd. rewrite Hd. cbn [mbind option_bind].
  destruct (if level_change _ data then _ else _) as [d' out] eqn:Hr.
  unfold update_symbol_dict.
  cbn [with_store with_symbol_dict store symbol_dict default_dict].
  rewrite !lookup_insert_eq. cbn [mbind option_bind].
  rewrite insert_insert_eq. reflexivity.
Qed.

Lemma level_change_true (d : SymDict num) (data : QuoteData num) :
  level_change d data = true <->
  n_eqb (bid d) (bidprice data) = false /\
  n_eqb (ask d) (askprice data) = false /\
  n_eqb (n_round 2 (n_sub (askprice data) (bidprice data))) n_cent = true.
Proof.
  unfold level_change. rewrite !andb_true_iff, !negb_true_iff. tauto.
Qed.

(** C2: a call of [update] for a symbol whose stored dictionary is [d].
    The level change is detected (the diagnostic line is printed and the new
    bid, ask and time are stored) iff the bid differs from the stored bid,
    the ask differs from the stored ask and [round(ask - bid, 2) == .01].
    When the condition fails, bid, ask, prev_bid, prev_ask, spread,
    prev_spread, traded, level_ct and time keep their values.  In both
    cases bid_size and ask_size are those of the message. *)
Theorem C2_update_level_change (q : Quote num) (data : QuoteData num)
    (d : SymDict num)
    (Hd : dict_of q (qd_symbol data) = Some d) :
  let changed :=
    n_eqb (bid d) (bidprice data) = false /\
    n_eqb (ask d) (askprice data) = false /\
    n_eqb (n_round 2 (n_sub (askprice data) (bidprice data))) n_cent = true in
  exists q' out d',
    update q data = Some (q', out) /\
    dict_of q' (qd_symbol data) = Some d' /\
    (out <> [] <-> changed) /\
    (changed ->
       out = [PrintLevel (qd_symbol data) (bid d) (ask d) (prev_spread d')
                (bidprice data) (askprice data) (spread d')] /\
       bid d' = bidprice data /\ ask d' = askprice data /\
       prev_bid d' = bid d /\ prev_ask d' = ask d /\
       time d' = qd_timestamp data) /\
    (~ changed ->
       out = [] /\
       bid d' = bid d /\ ask d' = ask d /\
       prev_bid d' = prev_bid d /\ prev_ask d' = prev_ask d /\
       spread d' = spread d /\ prev_spread d' = prev_spread d /\
       traded d' = traded d /\ level_ct d' = level_ct d /\
       time d' = time d) /\
    bid_size d' = bidsize data /\ ask_size d' = asksize data.
Proof.
  cbv zeta. pose proof (update_eq q data d Hd) as Hup. cbv zeta in Hup.
  set (d0 := set_ask_size (asksize data) (set_bid_size (bidsize data) d)) in *.
  pose proof (level_change_true d0 data) as Hlc.
  change (bid d0) with (bid d) in Hlc. change (ask d0) with (ask d) in Hlc.
  destruct (level_change d0 data) eqn:Hc.
  - assert (Hch : n_eqb (bid d) (bidprice data) = false /\
                  n_eqb (ask d) (askprice data) = false /\
                  n_eqb (n_round 2 (n_sub (askprice data) (bidprice data)))
                    n_cent = true) by (apply Hlc; reflexivity).
    unfold on_level_change in Hup.
    match type of Hup with
    | context [if ?c then _ else _] => destruct c
    end;
      (eexists _, _, _; split; [exact Hup|];
       split; [unfold dict_of, ref_of; cbn; rewrite lookup_insert_eq; cbn;
               apply lookup_insert_eq|];
       cbn; repeat split; try tauto; try discriminate).
  - assert (Hch : ~ (n_eqb (bid d) (bidprice data) = false /\
                     n_eqb (ask d) (askprice data) = false /\
                     n_eqb (n_round 2 (n_sub (askprice data) (bidprice data)))
                       n_cent = true)).
    { intros H. apply Hlc in H. discriminate. }
    eexists _, _, _. split; [exact Hup|].
    split; [unfold dict_of, ref_of; cbn; rewrite lookup_insert_eq; cbn;
            apply lookup_insert_eq|].
    cbn. repeat split; try tauto; try congruence.
Qed.

Lemma on_trade_eq (max_shares : Z) (api : Api num) (st : State num)
    (data : TradeData num) (d : SymDict num) :
  dict_of (quote st) (td_symbol data) = Some d ->
  let symbol := td_symbol data in
  let l := ref_of (quote st) symbol in
  let st1 := registered st symbol in
  on_trade max_shares api st data =
    Some (if traded d then (st1, [])
          else if td_timestamp data <=? time d + debounce then (st1, [])
          else if 100 <=? td_size data then
            if buy_signal max_shares d (position st) data then
              try_order api st1 symbol l d Buy (ask d)
            else if sell_signal d (position st) data then
              try_order api st1 symbol l d Sell (bid d)
            else (st1, [])
          else (st1, [])).
Proof.
  intros Hd. cbv zeta. unfold on_trade.
  rewrite get_symbol_dict_spec. cbn [with_symbol_dict store].
  unfold dict_of in Hd. rewrite Hd. cbn [mbind option_bind position].
  fold (registered st (td_symbol data)).
  repeat match goal with
         | |- context [if ?c then _ else _] => destruct c
         end; reflexivity.
Qed.

Lemma try_order_submits (api : Api num) (st : State num) (symbol : string)
    (l : loc) (d : SymDict num) (sd : side) (limit_price : num) :
  submits (try_order api st symbol l d sd limit_price).2
    = [SubmitOrder symbol sd 100 limit_price].
Proof.
  unfold try_order.
  destruct (submit_order api symbol sd limit_price) as [id|];
    [destruct (cancel_order api id)|]; destruct sd; reflexivity.
Qed.

Lemma try_order_attempted (api : Api num) (st : State num) (symbol : string)
    (l : loc) (d : SymDict num) (sd sd' : side) (limit_price : num) :
  attempted sd' (try_order api st symbol l d sd limit_price).2 <-> sd' = sd.
Proof.
  unfold attempted, try_order.
  destruct (submit_order api symbol sd limit_price) as [id|];
    [destruct (cancel_order api id)|]; destruct sd, sd'; cbn;
    split; congruence.
Qed.

Lemma buy_signal_true (max_shares : Z) (d : SymDict num) (p : Position)
    (data : TradeData num) :
  buy_signal max_shares d p data = true <->
  n_eqb (td_price data) (ask d) = true /\
  18 * ask_size d < 10 * bid_size d /\
  total_shares p + pending_buy_shares p < max_shares - 100.
Proof.
  unfold buy_signal, gt_times_1_8.
  rewrite !andb_true_iff, !Z.ltb_lt. tauto.
Qed.

Lemma sell_signal_true (d : SymDict num) (p : Position)
    (data : TradeData num) :
  sell_signal d p data = true <->
  n_eqb (td_price data) (bid d) = true /\
  18 * bid_size d < 10 * ask_size d /\
  100 <= total_shares p - pending_sell_shares p.
Proof.
  unfold sell_signal, gt_times_1_8.
  rewrite !andb_true_iff, !Z.ltb_lt, Z.leb_le. tauto.
Qed.

Lemma registered_id (st : State num) (symbol : string) :
  is_Some (symbol_dict (quote st) !! symbol) -> registered st symbol = st.
Proof.
  intros [l Hl]. unfold registered, ref_of, with_symbol_dict. rewrite Hl. cbn.
  rewrite insert_id by exact Hl. destruct st as [[? ? ?] ?]; reflexivity.
Qed.

Lemma ref_of_with_symbol_dict (q : Quote num) (symbol s : string) :
  ref_of (with_symbol_dict (<[symbol := ref_of q symbol]> (symbol_dict q)) q) s
  = ref_of q s.
Proof.
  unfold ref_of at 1; cbn.
  destruct (decide (symbol = s)) as [->|Hne].
  - rewrite lookup_insert_eq. reflexivity.
  - rewrite lookup_insert_ne by exact Hne. reflexivity.
Qed.

Lemma ref_of_registered (st : State num) (symbol s : string) :
  ref_of (quote (registered st symbol)) s = ref_of (quote st) s.
Proof. apply ref_of_with_symbol_dict. Qed.

Lemma dict_of_registered (st : State num) (symbol s : string) :
  dict_of (quote (registered st symbol)) s = dict_of (quote st) s.
Proof. unfold dict_of. rewrite ref_of_registered. reflexivity. Qed.

Lemma dict_of_with_store (h : gmap loc (SymDict num)) (q : Quote num)
    (s : string) :
  dict_of (with_store h q) s = h !! ref_of q s.
Proof. reflexivity. Qed.

(** C3, amended: a trade for a symbol whose stored dictionary is [d].
    If the symbol is not eligible ([traded] is set), or the trade is not
    later than 50ms after the last level change, or its size is below 100,
    no order is attempted, the position and every stored dictionary are
    unchanged, and the only change of state is that [get_symbol_dict] has
    registered the symbol if it was not tracked yet (for a tracked symbol
    the state is unchanged).  Otherwise a buy of 100 shares at the stored
    ask is attempted iff the price equals the stored ask, the bid size
    exceeds 1.8 times the ask size and total + pending buy shares are below
    [max_shares - 100]; a sell of 100 shares at the stored bid is attempted
    iff the buy conditions fail, the price equals the stored bid, the ask
    size exceeds 1.8 times the bid size and total - pending sell shares are
    at least 100.  A trade event submits at most one order.  The stored
    sizes are taken from 0 up to 2^50, the range in which the float product
    of the code decides as the exact product does. *)
Theorem C3_on_trade_decision (max_shares : Z) (api : Api num)
    (st : State num) (data : TradeData num) (d : SymDict num)
    (Hd : dict_of (quote st) (td_symbol data) = Some d)
    (Hbid : 0 <= bid_size d < 2 ^ 50)
    (Hask : 0 <= ask_size d < 2 ^ 50) :
  let symbol := td_symbol data in
  let p := position st in
  let blocked :=
    traded d = true \/ td_timestamp data <= time d + debounce \/
    td_size data < 100 in
  let buy :=
    n_eqb (td_price data) (ask d) = true /\
    18 * ask_size d < 10 * bid_size d /\
    total_shares p + pending_buy_shares p < max_shares - 100 in
  let sell :=
    n_eqb (td_price data) (bid d) = true /\
    18 * bid_size d < 10 * ask_size d /\
    100 <= total_shares p - pending_sell_shares p in
  let quiet st' out :=
    out = [] /\ position st' = p /\
    store (quote st') = store (quote st) /\
    default_dict (quote st') = default_dict (quote st) /\
    symbol_dict (quote st')
      = <[symbol := ref_of (quote st) symbol]> (symbol_dict (quote st)) /\
    (forall s, dict_of (quote st') s = dict_of (quote st) s) /\
    (is_Some (symbol_dict (quote st) !! symbol) -> st' = st) in
  exists st' out,
    on_trade max_shares api st data = Some (st', out) /\
    (blocked -> quiet st' out) /\
    (~ blocked ->
       (attempted Buy out <-> buy) /\
       (attempted Sell out <-> ~ buy /\ sell) /\
       (buy -> submits out = [SubmitOrder symbol Buy 100 (ask d)]) /\
       (~ buy -> sell -> submits out = [SubmitOrder symbol Sell 100 (bid d)]) /\
       (~ buy -> ~ sell -> quiet st' out)) /\
    (length (submits out) <= 1)%nat.
Proof.
  cbv zeta. rewrite (on_trade_eq _ _ _ _ _ Hd). cbv zeta.
  pose proof (buy_signal_true max_shares d (position st) data) as Hb.
  pose proof (sell_signal_true d (position st) data) as Hs.
  assert (Hquiet :
    let st' := registered st (td_symbol data) in
    @nil (effect num) = [] /\ position st' = position st /\
    store (quote st') = store (quote st) /\
    default_dict (quote st') = default_dict (quote st) /\
    symbol_dict (quote st')
      = <[td_symbol data := ref_of (quote st) (td_symbol data)]>
          (symbol_dict (quote st)) /\
    (forall s, dict_of (quote st') s = dict_of (quote st) s) /\
    (is_Some (symbol_dict (quote st) !! td_symbol data) -> st' = st)).
  { cbv zeta. split_and!; try reflexivity.
    - apply dict_of_registered.
    - apply registered_id. }
  cbv zeta in Hquiet.
  destruct (traded d) eqn:Ht.
  { eexists _, _. split; [reflexivity|]. split_and!.
    - intros _. exact Hquiet.
    - intros Hg. exfalso. apply Hg. left. reflexivity.
    - cbn. lia. }
  destruct (Z.leb_spec (td_timestamp data) (time d + debounce)) as [Hts|Hts].
  { eexists _, _. split; [reflexivity|]. split_and!.
    - intros _. exact Hquiet.
    - intros Hg. exfalso. apply Hg. right. left. exact Hts.
    - cbn. lia. }
  destruct (Z.leb_spec 100 (td_size data)) as [Hsz|Hsz]; cycle 1.
  { eexists _, _. split; [reflexivity|]. split_and!.
    - intros _. exact Hquiet.
    - intros Hg. exfalso. apply Hg. right. right. exact Hsz.
    - cbn. lia. }
  assert (Hng : ~ (false = true \/ td_timestamp data <= time d + debounce \/
                   td_size data < 100)).
  { intros [H|[H|H]]; [discriminate | lia | lia]. }
  destruct (buy_signal max_shares d (position st) data) eqn:Hbuy.
  { assert (Hbt := proj1 Hb eq_refl).
    eexists _, _. split; [apply f_equal, surjective_pairing|]. split_and!.
    - intros Hg. contradiction.
    - intros _. split_and!.
      + rewrite try_order_attempted. tauto.
      + rewrite try_order_attempted. split; [discriminate | tauto].
      + intros _. apply try_order_submits.
      + intros Hnb. contradiction.
      + intros Hnb. contradiction.
    - rewrite try_order_submits. cbn. lia. }
  assert (Hnb : ~ (n_eqb (td_price data) (ask d) = true /\
                   18 * ask_size d < 10 * bid_size d /\
                   total_shares (position st) + pending_buy_shares (position st)
                     < max_shares - 100)).
  { intros H. apply Hb in H. discriminate. }
  destruct (sell_signal d (position st) data) eqn:Hsell.
  { assert (Hst := proj1 Hs eq_refl).
    eexists _, _. split; [apply f_equal, surjective_pairing|]. split_and!.
    - intros Hg. contradiction.
    - intros _. split_and!.
      + rewrite try_order_attempted. split; [discriminate | tauto].
      + rewrite try_order_attempted. tauto.
      + intros H. contradiction.
      + intros _ _. apply try_order_submits.
      + intros _ H. contradiction.
    - rewrite try_order_submits. cbn. lia. }
  assert (Hns : ~ (n_eqb (td_price data) (bid d) = true /\
                   18 * bid_size d < 10 * ask_size d /\
                   100 <= total_shares (position st)
                          - pending_sell_shares (position st))).
  { intros H. apply Hs in H. discriminate. }
  eexists _, _. split; [reflexivity|]. split_and!.
  - intros Hg. contradiction.
  - intros _. split_and!.
    + split; [discriminate | tauto].
    + split; [discriminate | tauto].
    + intros H. contradiction.
    + intros _ H. contradiction.
    + intros _ _. exact Hquiet.
  - cbn. lia.
Qed.

(** What [on_trade] leaves when the submission succeeds and the cancel
    call that follows raises: the exception is caught and printed and the
    statements after the cancel call have not run, so the pending counters
    and the ledger are unchanged (no entry for the new order), the stored
    dictionaries are unchanged, and [traded] is still false. *)
Lemma cancel_failure_skips_updates (max_shares : Z) (api : Api num) (st : State num)
    (data : TradeData num) (d : SymDict num) (sd : side) (limit_price : num)
    (id : string) (st' : State num) (out : list (effect num))
    (Hd : dict_of (quote st) (td_symbol data) = Some d)
    (Hrun : on_trade max_shares api st data = Some (st', out))
    (Hatt : In (SubmitOrder (td_symbol data) sd 100 limit_price) out)
    (Hsubmit : submit_order api (td_symbol data) sd limit_price = Some id)
    (Hcancel : cancel_order api id = false) :
  out = [SubmitOrder (td_symbol data) sd 100 limit_price;
         CancelOrder id; PrintExn] /\
  position st' = position st /\
  store (quote st') = store (quote st) /\
  dict_of (quote st') (td_symbol data) = Some d /\
  traded d = false /\
  eligible (quote st') (td_symbol data) = Some true.
Proof.
  rewrite (on_trade_eq _ _ _ _ _ Hd) in Hrun. cbv zeta in Hrun.
  assert (Hfin : forall sd' lim',
    (st', out) = try_order api (registered st (td_symbol data))
                   (td_symbol data) (ref_of (quote st) (td_symbol data))
                   d sd' lim' ->
    traded d = false ->
    out = [SubmitOrder (td_symbol data) sd 100 limit_price;
           CancelOrder id; PrintExn] /\
    position st' = position st /\
    store (quote st') = store (quote st) /\
    dict_of (quote st') (td_symbol data) = Some d /\
    traded d = false /\
    eligible (quote st') (td_symbol data) = Some true).
  { intros sd' lim' Heq Ht. unfold try_order in Heq.
    destruct (submit_order api (td_symbol data) sd' lim') as [id'|] eqn:Hsub;
      [destruct (cancel_order api id') eqn:Hcan|];
      injection Heq as E1 E2; subst st' out;
      cbn [In] in Hatt;
      (assert (H : SubmitOrder (td_symbol data) sd' 100 lim'
                   = SubmitOrder (td_symbol data) sd 100 limit_price)
         by (repeat destruct Hatt as [Hatt|Hatt];
             first [exact Hatt | discriminate Hatt | destruct Hatt]));
      injection H as E1 E2; subst sd' lim'; rewrite Hsubmit in Hsub;
      try discriminate Hsub; injection Hsub as E1; subst id';
      try congruence.
    split_and!; try reflexivity.
    - rewrite dict_of_registered. exact Hd.
    - exact Ht.
    - unfold eligible. rewrite dict_of_registered, Hd. cbn. rewrite Ht.
      reflexivity. }
  destruct (traded d) eqn:Ht.
  { injection Hrun as E1 E2; subst out. destruct Hatt. }
  destruct (td_timestamp data <=? time d + debounce).
  { injection Hrun as E1 E2; subst out. destruct Hatt. }
  destruct (100 <=? td_size data); cycle 1.
  { injection Hrun as E1 E2; subst out. destruct Hatt. }
  destruct (buy_signal max_shares d (position st) data).
  { injection Hrun as Hrun. symmetry in Hrun. exact (Hfin _ _ Hrun eq_refl). }
  destruct (sell_signal d (position st) data).
  { injection Hrun as Hrun. symmetry in Hrun. exact (Hfin _ _ Hrun eq_refl). }
  injection Hrun as E1 E2; subst out. destruct Hatt.
Qed.

(** C5, amended: on a newly constructed tracker, the dictionary that
    [get_symbol_dict] returns for a symbol has bid = ask = 0, level_ct = 1
    and traded = True: the symbol starts not eligible. *)
Theorem C5_first_access_defaults (symbol : string) :
  exists d,
    dict_of Quote_init symbol = Some d /\
    store (get_symbol_dict Quote_init symbol).2
      !! (get_symbol_dict Quote_init symbol).1 = Some d /\
    bid d = n_zero /\ ask d = n_zero /\ level_ct d = 1 /\
    traded d = true /\
    eligible (get_symbol_dict Quote_init symbol).2 symbol = Some false.
Proof.
  exists default_values. split_and!; try reflexivity.
  rewrite get_symbol_dict_spec. unfold eligible, dict_of, ref_of at 1. cbn.
  rewrite lookup_insert_eq. reflexivity.
Qed.

Lemma all_alias_ref_of (q : Quote num) (s : string) :
  all_alias q -> ref_of q s = default_dict q.
Proof.
  intros Ha. unfold ref_of.
  destruct (symbol_dict q !! s) as [l|] eqn:Hl; cbn; [eauto | reflexivity].
Qed.

Lemma all_alias_init : all_alias Quote_init.
Proof. intros s l. cbn. rewrite lookup_empty. discriminate. Qed.

Lemma all_alias_insert (q : Quote num) (s : string) (h : gmap loc (SymDict num)) :
  all_alias q ->
  all_alias {| symbol_dict := <[s := ref_of q s]> (symbol_dict q);
               default_dict := default_dict q; store := h |}.
Proof.
  intros Ha s' l. cbn. destruct (decide (s = s')) as [->|Hne].
  - rewrite lookup_insert_eq. intros [= <-]. apply all_alias_ref_of, Ha.
  - rewrite lookup_insert_ne by exact Hne. apply Ha.
Qed.

Lemma ref_of_insert (q : Quote num) (symbol s : string)
    (h : gmap loc (SymDict num)) :
  ref_of {| symbol_dict := <[symbol := ref_of q symbol]> (symbol_dict q);
            default_dict := default_dict q; store := h |} s
  = ref_of q s.
Proof.
  unfold ref_of at 1; cbn.
  destruct (decide (symbol = s)) as [->|Hne].
  - rewrite lookup_insert_eq. reflexivity.
  - rewrite lookup_insert_ne by exact Hne. reflexivity.
Qed.

Lemma update_Some_dict (q : Quote num) (data : QuoteData num) r :
  update q data = Some r -> is_Some (dict_of q (qd_symbol data)).
Proof.
  unfold update. rewrite get_symbol_dict_spec. cbn [with_symbol_dict store].
  unfold dict_of. destruct (store q !! _); [eauto | discriminate].
Qed.

Lemma on_trade_Some_dict (max_shares : Z) (api : Api num) (st : State num)
    (data : TradeData num) r :
  on_trade max_shares api st data = Some r ->
  is_Some (dict_of (quote st) (td_symbol data)).
Proof.
  unfold on_trade. rewrite get_symbol_dict_spec. cbn [with_symbol_dict store].
  unfold dict_of. destruct (store (quote st) !! _); [eauto | discriminate].
Qed.

(** The aliasing is an invariant of the program: it holds after
    [__init__] and every handler keeps it. *)
Lemma all_alias_dispatch (max_shares : Z) (st st' : State num) (m : message num)
    (out : list (effect num)) :
  all_alias (quote st) ->
  dispatch max_shares st m = Some (st', out) ->
  all_alias (quote st').
Proof.
  intros Ha Hrun. destruct m as [data|api data|data]; cbn in Hrun.
  - unfold on_quote in Hrun.
    destruct (update (quote st) data) as [[q' out']|] eqn:Hup;
      [|discriminate].
    cbn in Hrun. injection Hrun as E1 E2; subst st' out. cbn.
    destruct (update_Some_dict _ _ _ Hup) as [d Hd].
    rewrite (update_eq _ _ _ Hd) in Hup. cbv zeta in Hup.
    injection Hup as E1 E2; subst q'. apply all_alias_insert, Ha.
  - destruct (on_trade_Some_dict _ _ _ _ _ Hrun) as [d Hd].
    rewrite (on_trade_eq _ _ _ _ _ Hd) in Hrun. cbv zeta in Hrun.
    injection Hrun as Hrun. unfold try_order in Hrun.
    repeat match type of Hrun with
           | context [if ?c then _ else _] => destruct c
           | context [match ?c with Some _ => _ | None => _ end] => destruct c
           end;
      injection Hrun as E1 E2; subst st' out;
      unfold registered, with_store, with_symbol_dict; cbn;
      apply all_alias_insert, Ha.
  - injection Hrun as E1 E2; subst st' out. exact Ha.
Qed.

(** Under the aliasing every symbol reads the same dictionary. *)
Lemma all_alias_shared (q : Quote num) (s1 s2 : string) :
  all_alias q -> dict_of q s1 = dict_of q s2.
Proof.
  intros Ha. unfold dict_of. rewrite !all_alias_ref_of by exact Ha.
  reflexivity.
Qed.

Lemma on_level_change_traded (symbol : string) (d : SymDict num)
    (data : QuoteData num) :
  let d' := (on_level_change symbol d data).1 in
  (traded d' = traded d /\ n_eqb (prev_spread d') n_cent = false) \/
  (traded d' = false /\ n_eqb (prev_spread d') n_cent = true).
Proof.
  cbv zeta. unfold on_level_change.
  match goal with
  | |- context [if ?c then _ else _] => destruct c eqn:Hc
  end; cbn in *; [right | left]; split; (reflexivity || exact Hc).
Qed.

(** What one message can do to the ['traded'] key that a symbol [s] reads.
    It goes from true to false (the symbol becomes eligible) only in
    [Quote.update], on a level change whose new [prev_spread] equals [.01];
    it goes from false to true only in [on_trade], after [submit_order] and
    [cancel_order] both returned.  In both cases the message is for a
    symbol that refers to the same dictionary as [s]. *)
Lemma traded_transitions (max_shares : Z) (st st' : State num) (m : message num)
    (out : list (effect num)) (s : string) (d d' : SymDict num) :
  dispatch max_shares st m = Some (st', out) ->
  dict_of (quote st) s = Some d ->
  dict_of (quote st') s = Some d' ->
  (traded d = true -> traded d' = false ->
   exists data,
     m = OnQuote data /\
     ref_of (quote st) (qd_symbol data) = ref_of (quote st) s /\
     level_change d data = true /\
     n_eqb (prev_spread d') n_cent = true) /\
  (traded d = false -> traded d' = true ->
   exists api data sd limit_price id,
     m = OnTrade api data /\
     ref_of (quote st) (td_symbol data) = ref_of (quote st) s /\
     submit_order api (td_symbol data) sd limit_price = Some id /\
     cancel_order api id = true /\
     out = [SubmitOrder (td_symbol data) sd 100 limit_price; CancelOrder id;
            PrintOrder sd (td_symbol data) limit_price]).
Proof.
  intros Hrun Hd Hd'.
  assert (Hsame : d' = d ->
    (traded d = true -> traded d' = false ->
     exists data,
       m = OnQuote data /\
       ref_of (quote st) (qd_symbol data) = ref_of (quote st) s /\
       level_change d data = true /\
       n_eqb (prev_spread d') n_cent = true) /\
    (traded d = false -> traded d' = true ->
     exists api data sd limit_price id,
       m = OnTrade api data /\
       ref_of (quote st) (td_symbol data) = ref_of (quote st) s /\
       submit_order api (td_symbol data) sd limit_price = Some id /\
       cancel_order api id = true /\
       out = [SubmitOrder (td_symbol data) sd 100 limit_price; CancelOrder id;
              PrintOrder sd (td_symbol data) limit_price])).
  { intros ->. split; intros H1 H2; congruence. }
  destruct m as [data|api data|data]; cbn in Hrun.
  - unfold on_quote in Hrun.
    destruct (update (quote st) data) as [[q' out']|] eqn:Hup;
      [|discriminate].
    cbn in Hrun. injection Hrun as E1 E2; subst st' out'.
    destruct (update_Some_dict _ _ _ Hup) as [ds Hds].
    rewrite (update_eq _ _ _ Hds) in Hup. cbv zeta in Hup.
    injection Hup as E1 E2; subst q'.
    unfold dict_of in Hd'. cbn [quote] in Hd'.
    rewrite ref_of_insert in Hd'. cbn [store] in Hd'.
    destruct (decide (ref_of (quote st) (qd_symbol data) = ref_of (quote st) s))
      as [Heq|Hne]; cycle 1.
    { rewrite lookup_insert_ne in Hd' by exact Hne.
      apply Hsame. unfold dict_of in Hd. congruence. }
    rewrite Heq, lookup_insert_eq in Hd'. injection Hd' as Hd'.
    assert (ds = d) by (unfold dict_of in Hd, Hds; congruence). subst ds.
    set (d0 := set_ask_size (asksize data) (set_bid_size (bidsize data) d))
      in *.
    change (level_change d0 data) with (level_change d data) in *.
    destruct (level_change d data) eqn:Hlc.
    + pose proof (on_level_change_traded (qd_symbol data) d0 data) as Ht.
      cbv zeta in Ht. rewrite Hd' in Ht. change (traded d0) with (traded d) in Ht.
      split.
      * intros H1 H2. exists data. split_and!; try reflexivity; try assumption.
        destruct Ht as [[Ht _]|[_ Ht]]; [congruence | exact Ht].
      * intros H1 H2. destruct Ht as [[Ht _]|[Ht _]]; congruence.
    + cbn in Hd'. subst d'. split; intros H1 H2; cbn in H2; congruence.
  - destruct (on_trade_Some_dict _ _ _ _ _ Hrun) as [ds Hds].
    rewrite (on_trade_eq _ _ _ _ _ Hds) in Hrun. cbv zeta in Hrun.
    injection Hrun as Hrun.
    assert (Hq : forall o, (st', out) = (registered st (td_symbol data), o) ->
                 d' = d).
    { intros o E. injection E as E1 E2; subst st' out.
      rewrite dict_of_registered in Hd'. congruence. }
    assert (Ht : forall sd lim,
      (st', out) = try_order api (registered st (td_symbol data))
                     (td_symbol data) (ref_of (quote st) (td_symbol data))
                     ds sd lim ->
      d' = d \/
      (ref_of (quote st) (td_symbol data) = ref_of (quote st) s /\
       traded d' = true /\
       exists id,
         submit_order api (td_symbol data) sd lim = Some id /\
         cancel_order api id = true /\
         out = [SubmitOrder (td_symbol data) sd 100 lim; CancelOrder id;
                PrintOrder sd (td_symbol data) lim])).
    { intros sd lim E. unfold try_order in E.
      destruct (submit_order api (td_symbol data) sd lim) as [id|] eqn:Hsub;
        [destruct (cancel_order api id) eqn:Hcan|];
        try (left; eapply Hq; exact E).
      injection E as E1 E2; subst st' out.
      cbn [quote] in Hd'.
      rewrite dict_of_with_store, ref_of_with_symbol_dict in Hd'.
      destruct (decide (ref_of (quote st) (td_symbol data)
                        = ref_of (quote st) s)) as [Heq|Hne].
      - right. split; [exact Heq|].
        rewrite Heq, lookup_insert_eq in Hd'. injection Hd' as E; subst d'.
        split; [reflexivity|]. exists id.
        split_and!; first [reflexivity | assumption].
      - left. rewrite lookup_insert_ne in Hd' by exact Hne.
        unfold dict_of in Hd. congruence. }
    repeat match type of Hrun with
           | context [if ?c then _ else _] => destruct c
           end;
      try (eapply Hsame, Hq; symmetry; exact Hrun);
      (symmetry in Hrun;
       destruct (Ht _ _ Hrun) as [E|(Heq & Htr & id & H1 & H2 & H3)];
       [apply Hsame, E|]);
      (split; [intros Ha Hb; congruence | intros Ha Hb; eauto 10]).
  - injection Hrun as E1 E2; subst st' out. cbn in Hd'.
    apply Hsame. congruence.
Qed.

End Handlers.

(** * The program run on decimal prices *)

Lemma state_after_quotes_run :
  run 500 State_init [OnQuote quote_B; OnQuote quote_A1; OnQuote quote_A2]
  = Some (state_after_quotes,
          [PrintLevel "A" 0 0 0 (usd 9 99) (usd 10 0) 100;
           PrintLevel "A" (usd 9 99) (usd 10 0) 100 (usd 10 0) (usd 10 1) 100]).
Proof. vm_compute. reflexivity. Qed.

(** C4 on the code: B is quoted first and its dictionary is created; a
    quote for A then changes what B reads (bid, ask, sizes, time), because
    both symbols refer to the dictionary of [__init__]. *)
Theorem C4_update_of_A_changes_B :
  exists q1 out1 q2 out2 dB dB',
    update Quote_init quote_B = Some (q1, out1) /\
    update q1 quote_A1 = Some (q2, out2) /\
    symbol_dict q2 !! "A" = symbol_dict q2 !! "B" /\
    dict_of q1 "B" = Some dB /\
    dict_of q2 "B" = Some dB' /\
    (bid dB, ask dB, bid_size dB, ask_size dB, time dB)
      = (0, 0, 500, 500, 0) /\
    (bid dB', ask dB', bid_size dB', ask_size dB', time dB')
      = (usd 9 99, usd 10 0, 300, 100, msec 2000) /\
    dB' <> dB.
Proof.
  eexists _, _, _, _, _, _.
  split; [vm_compute; reflexivity|].
  split; [vm_compute; reflexivity|].
  split; [vm_compute; reflexivity|].
  split; [vm_compute; reflexivity|].
  split; [vm_compute; reflexivity|].
  split; [vm_compute; reflexivity|].
  split; [vm_compute; reflexivity|].
  vm_compute. discriminate.
Qed.

(** C1 on the code: B has had no qualifying level change and no order, yet
    its eligibility flag goes from false to true on the level change of A
    and from true to false on the order submitted for A. *)
Theorem C1_flag_of_B_follows_A :
  exists s2 out2 s3 out3 s4 out4,
    run 500 State_init [OnQuote quote_B; OnQuote quote_A1] = Some (s2, out2) /\
    dispatch 500 s2 (OnQuote quote_A2) = Some (s3, out3) /\
    dispatch 500 s3 (OnTrade api_ok trade_A) = Some (s4, out4) /\
    eligible (quote s2) "B" = Some false /\
    eligible (quote s3) "B" = Some true /\
    eligible (quote s4) "B" = Some false /\
    out3 = [PrintLevel "A" (usd 9 99) (usd 10 0) 100 (usd 10 0) (usd 10 1) 100] /\
    out4 = [SubmitOrder "A" Buy 100 (usd 10 1); CancelOrder "o1";
            PrintOrder Buy "A" (usd 10 1)].
Proof.
  eexists _, _, _, _, _, _.
  split; [vm_compute; reflexivity|].
  split; [vm_compute; reflexivity|].
  split; [vm_compute; reflexivity|].
  split; [vm_compute; reflexivity|].
  split; [vm_compute; reflexivity|].
  split; [vm_compute; reflexivity|].
  split; vm_compute; reflexivity.
Qed.

(** C5, as stated, fails: the dictionary created on the first access of a
    symbol has traded = True, so the symbol does not start eligible. *)
Lemma C5_starts_ineligible :
  let q := (get_symbol_dict (Quote_init (num := Z)) "SNAP").2 in
  eligible q "SNAP" = Some false /\ eligible q "SNAP" <> Some true.
Proof. cbv zeta. split; [vm_compute; reflexivity | vm_compute; discriminate]. Qed.

(** C3, as stated, fails: a trade for a symbol that is not eligible submits
    nothing but changes the state, since [get_symbol_dict] registers the
    symbol. *)
Lemma C3_ineligible_trade_registers_symbol :
  exists d st',
    dict_of (quote State_init) "SNAP" = Some d /\ traded d = true /\
    on_trade 500 api_ok State_init trade_SNAP = Some (st', []) /\
    symbol_dict (quote State_init) !! "SNAP" = None /\
    symbol_dict (quote st') !! "SNAP" = Some 1%positive /\
    st' <> State_init.
Proof.
  eexists _, _.
  split; [vm_compute; reflexivity|].
  split; [reflexivity|].
  split; [vm_compute; reflexivity|].
  split; [vm_compute; reflexivity|].
  split; [vm_compute; reflexivity|].
  intros H. apply (f_equal (fun st => symbol_dict (quote st) !! "SNAP")) in H.
  vm_compute in H. discriminate.
Qed.

(** C6 on the code: the order is accepted and the cancel call raises.  The
    statements that follow the cancel call never run, so the symbol is
    still eligible, the pending counter is not incremented and the accepted
    order has no ledger entry.  The same trade, at the same level and with
    no quote in between, makes [on_trade] submit a second order, and a fill
    of the accepted order raises [KeyError]. *)
Theorem C6_cancel_failure_leaves_state :
  exists st' d st'' p',
    dict_of (quote state_after_quotes) "A" = Some d /\ traded d = false /\
    pending_buy_shares (position state_after_quotes) = 0 /\
    submit_order api_cancel_fails "A" Buy (usd 10 1) = Some "o1" /\
    cancel_order api_cancel_fails "o1" = false /\
    on_trade 500 api_cancel_fails state_after_quotes trade_A
      = Some (st', [SubmitOrder "A" Buy 100 (usd 10 1); CancelOrder "o1";
                    PrintExn]) /\
    eligible (quote st') "A" = Some true /\
    pending_buy_shares (position st') = 0 /\
    orders_filled_amount (position st') !! "o1" = None /\
    ~ (eligible (quote st') "A" = Some false /\
       pending_buy_shares (position st') = 100) /\
    on_trade 500 api_cancel_fails st' trade_A
      = Some (st'', [SubmitOrder "A" Buy 100 (usd 10 1); CancelOrder "o1";
                     PrintExn]) /\
    on_trade_updates (position st')
      {| event := Fill; ou_id := "o1"; ou_side := Buy; filled_qty := 100 |}
      = Raise (KeyError "o1") p'.
Proof.
  eexists _, _, _, _.
  split; [vm_compute; reflexivity|].
  split; [reflexivity|].
  split; [reflexivity|].
  split; [reflexivity|].
  split; [reflexivity|].
  split; [vm_compute; reflexivity|].
  split; [vm_compute; reflexivity|].
  split; [reflexivity|].
  split; [vm_compute; reflexivity|].
  split; [intros [_ H]; vm_compute in H; discriminate|].
  split; vm_compute; reflexivity.
Qed.

Lemma C2_update_level_change_witness :
  exists q' out d',
    update Quote_init quote_A1 = Some (q', out) /\
    dict_of q' "A" = Some d' /\
    bid d' = usd 9 99 /\ bid_size d' = 300.
Proof.
  destruct (C2_update_level_change Quote_init quote_A1 default_values
              eq_refl)
    as (q' & out & d' & Hup & Hd' & _ & Hch & _ & Hbs & _).
  exists q', out, d'. split; [exact Hup|]. split; [exact Hd'|].
  split; [|exact Hbs].
  apply Hch. vm_compute. repeat split.
Defined.

Lemma C3_on_trade_decision_witness :
  exists st' out,
    on_trade 500 api_ok state_after_quotes trade_A = Some (st', out) /\
    submits out = [SubmitOrder "A" Buy 100 (usd 10 1)].
Proof.
  destruct (C3_on_trade_decision 500 api_ok state_after_quotes trade_A
              (set_traded false
                 (set_level_ct 2
                    {| prev_bid := usd 9 99; prev_ask := usd 10 0;
                       prev_spread := 100; bid := usd 10 0; ask := usd 10 1;
                       bid_size := 300; ask_size := 100; spread := 100;
                       traded := true; level_ct := 1; time := msec 3000 |}))
              ltac:(vm_compute; reflexivity)
              ltac:(cbn; lia) ltac:(cbn; lia))
    as (st' & out & Hrun & _ & Hgo & _).
  exists st', out. split; [exact Hrun|].
  apply Hgo.
  - vm_compute. intros [H|[H|H]]; [discriminate H | apply H; reflexivity
                                   | discriminate H].
  - vm_compute. repeat split.
Defined.

(** * Further properties of the position ledger *)

Lemma signed_add (sd : side) (a b : Z) :
  signed sd (a + b) = signed sd a + signed sd b.
Proof. destruct sd; cbn; lia. Qed.

(** Partial fills of a registered order, with the totals: the recorded
    amount ends at [recorded qs f], [total_shares] has moved by the growth
    of the recorded amount and the pending counter by its opposite. *)
Lemma partial_fills_total (id : string) (sd : side) (qs : list Z) :
  forall (p : Position) (f : Z),
    orders_filled_amount p !! id = Some f ->
    exists p',
      on_trade_updates_seq p (map (partial_fill id sd) qs) = Ok p' /\
      orders_filled_amount p' !! id = Some (recorded qs f) /\
      total_shares p' = total_shares p + signed sd (recorded qs f - f) /\
      pending sd p' = pending sd p - (recorded qs f - f) /\
      pending (opposite sd) p' = pending (opposite sd) p.
Proof.
  induction qs as [|n qs IH]; intros p f Hreg.
  - exists p. cbn. rewrite Z.sub_diag. destruct sd; cbn; repeat split;
      first [exact Hreg | lia].
  - cbn [map on_trade_updates_seq].
    change (on_trade_updates p (partial_fill id sd n))
      with (update_filled_amount p id n sd).
    rewrite (update_filled_amount_Some _ _ _ _ _ Hreg).
    unfold recorded in *. cbn [fold_left].
    destruct (Z.gtb_spec n f) as [Hgt|Hle].
    + rewrite (Z.max_r f n) by lia.
      lazymatch goal with
      | |- context [on_trade_updates_seq ?q _] =>
          destruct (IH q n) as (p' & Hrun & Hreg' & Htot & Hpend & Hopp)
      end.
      { cbn. apply lookup_insert_eq. }
      exists p'. split; [exact Hrun|]. split; [exact Hreg'|].
      rewrite Htot, Hpend, Hopp. destruct sd; cbn; repeat split; lia.
    + rewrite (Z.max_l f n) by lia. apply IH. exact Hreg.
Qed.

(** X1: the whole life of an order in [total_shares].  An order is
    registered, partial fills report the amounts [qs], and one terminal
    event ends it.  Every update is accepted.  A cancel or reject leaves in
    [total_shares] what the partial fills put there, the largest amount
    reported; a fill adds its whole [filled_qty] on top of that, so a fill
    that reports the cumulative quantity counts the partial fills twice. *)
Theorem order_lifecycle_total (p : Position) (sd : side) (id : string)
    (qs : list Z) (k : event_kind) (qty : Z)
    (Hterm : terminal k) :
  exists p',
    on_trade_updates_seq (register_order sd id p)
      (map (partial_fill id sd) qs ++
       [{| event := k; ou_id := id; ou_side := sd; filled_qty := qty |}])
      = Ok p' /\
    total_shares p' =
      total_shares p
      + signed sd (recorded qs 0 + match k with Fill => qty | _ => 0 end) /\
    0 <= recorded qs 0 /\
    Forall (fun n => n <= recorded qs 0) qs.
Proof.
  destruct (partial_fills_total id sd qs (register_order sd id p) 0)
    as (p1 & Hrun & Hreg & Htot & _).
  { unfold register_order. cbn. apply lookup_insert_eq. }
  rewrite (on_trade_updates_seq_app _ _ _ _ Hrun).
  cbn [on_trade_updates_seq].
  assert (Ht0 : total_shares (register_order sd id p) = total_shares p)
    by (destruct sd; reflexivity).
  rewrite Z.sub_0_r, Ht0 in Htot.
  assert (Hmax : forall l f, f <= recorded l f /\
                             Forall (fun n => n <= recorded l f) l).
  { clear. unfold recorded. induction l as [|n l IH]; intros f; cbn.
    - split; [lia | constructor].
    - destruct (IH (Z.max f n)) as [H1 H2]. split; [lia|].
      constructor; [lia | exact H2]. }
  destruct (Hmax qs 0) as [Hnn Hall].
  unfold on_trade_updates; cbn [event ou_id ou_side filled_qty].
  destruct Hterm as [-> | [-> | ->]].
  - erewrite remove_pending_order_Some by (destruct sd; exact Hreg).
    eexists. split; [reflexivity|]. cbn [total_shares].
    split; [|split; assumption].
    rewrite signed_add. destruct sd; cbn in *; lia.
  - rewrite (remove_pending_order_Some _ _ _ _ Hreg).
    eexists. split; [reflexivity|]. cbn [total_shares].
    split; [|split; assumption]. rewrite Z.add_0_r. exact Htot.
  - rewrite (remove_pending_order_Some _ _ _ _ Hreg).
    eexists. split; [reflexivity|]. cbn [total_shares].
    split; [|split; assumption]. rewrite Z.add_0_r. exact Htot.
Qed.

Lemma order_lifecycle_total_witness :
  exists p',
    on_trade_updates_seq (register_order Buy "o3" Position_init)
      (map (partial_fill "o3" Buy) [40; 70] ++
       [{| event := Fill; ou_id := "o3"; ou_side := Buy;
           filled_qty := 100 |}])
      = Ok p' /\
    total_shares p' = 170.
Proof.
  destruct (order_lifecycle_total Position_init Buy "o3" [40; 70] Fill 100)
    as (p' & Hrun & Htot & _).
  - left. reflexivity.
  - exists p'. split; [exact Hrun | exact Htot].
Defined.

(** An update of kind fill, partial_fill, canceled or rejected for an order
    id that is not in the ledger raises [KeyError]; only a fill has changed
    anything before, [total_shares]. *)
Lemma unknown_order_raises (p : Position) (data : OrderUpdate) :
  event data <> OtherEvent ->
  orders_filled_amount p !! ou_id data = None ->
  on_trade_updates p data =
    Raise (KeyError (ou_id data))
      (match event data with
       | Fill => update_total_shares (signed (ou_side data) (filled_qty data)) p
       | _ => p
       end).
Proof.
  intros Hk Hmiss.
  unfold on_trade_updates, update_filled_amount, remove_pending_order.
  destruct (event data); try congruence.
  - destruct (ou_side data); cbn; rewrite Hmiss; try reflexivity;
      do 2 f_equal; lia.
  - rewrite Hmiss. reflexivity.
  - rewrite Hmiss. reflexivity.
  - rewrite Hmiss. reflexivity.
Qed.

(** X2: a terminal event takes the order out of the ledger, so a second
    update for the same order (a duplicate fill, a late partial fill, a
    cancel after the fill) raises [KeyError].  The pending counters are not
    touched again, but a duplicate fill has added its [filled_qty] to
    [total_shares] once more before the exception. *)
Theorem update_after_terminal_raises (p : Position) (id : string) (sd : side)
    (old qty : Z) (k : event_kind) (late : OrderUpdate)
    (Hreg : orders_filled_amount p !! id = Some old)
    (Hterm : terminal k)
    (Hid : ou_id late = id)
    (Hkind : event late <> OtherEvent) :
  exists p1 p2,
    on_trade_updates p
      {| event := k; ou_id := id; ou_side := sd; filled_qty := qty |}
      = Ok p1 /\
    on_trade_updates p1 late = Raise (KeyError id) p2 /\
    pending_buy_shares p2 = pending_buy_shares p1 /\
    pending_sell_shares p2 = pending_sell_shares p1 /\
    orders_filled_amount p2 = orders_filled_amount p1 /\
    total_shares p2 =
      total_shares p1
      + match event late with
        | Fill => signed (ou_side late) (filled_qty late)
        | _ => 0
        end.
Proof.
  assert (H1 : exists p1,
    on_trade_updates p
      {| event := k; ou_id := id; ou_side := sd; filled_qty := qty |} = Ok p1 /\
    orders_filled_amount p1 !! id = None).
  { unfold on_trade_updates; cbn [event ou_id ou_side filled_qty].
    destruct Hterm as [-> | [-> | ->]].
    - erewrite remove_pending_order_Some by (destruct sd; exact Hreg).
      eexists. split; [reflexivity|]. cbn. apply lookup_delete_eq.
    - rewrite (remove_pending_order_Some _ _ _ _ Hreg).
      eexists. split; [reflexivity|]. cbn. apply lookup_delete_eq.
    - rewrite (remove_pending_order_Some _ _ _ _ Hreg).
      eexists. split; [reflexivity|]. cbn. apply lookup_delete_eq. }
  destruct H1 as (p1 & Hrun1 & Hgone).
  exists p1. eexists. split; [exact Hrun1|].
  rewrite <- Hid in Hgone |- *.
  split; [apply unknown_order_raises; assumption|].
  destruct (event late); cbn; repeat split; lia.
Qed.

Lemma update_after_terminal_raises_witness :
  exists p1 p2,
    on_trade_updates ledger_after_partial
      {| event := Fill; ou_id := "o1"; ou_side := Buy; filled_qty := 100 |}
      = Ok p1 /\
    on_trade_updates p1
      {| event := Fill; ou_id := "o1"; ou_side := Buy; filled_qty := 100 |}
      = Raise (KeyError "o1") p2 /\
    total_shares p1 = 140 /\ total_shares p2 = 240.
Proof.
  destruct (update_after_terminal_raises ledger_after_partial "o1" Buy 40 100
              Fill
              {| event := Fill; ou_id := "o1"; ou_side := Buy;
                 filled_qty := 100 |})
    as (p1 & p2 & Hrun1 & Hrun2 & _ & _ & _ & Htot).
  - reflexivity.
  - left. reflexivity.
  - reflexivity.
  - cbn. discriminate.
  - exists p1, p2. split; [exact Hrun1|]. split; [exact Hrun2|].
    assert (H1 : total_shares p1 = 140).
    { vm_compute in Hrun1. injection Hrun1 as <-. reflexivity. }
    split; [exact H1|]. rewrite Htot, H1. reflexivity.
Defined.

(** X3: an order update never touches the ledger entry of another order,
    whether the handler returns or raises. *)
Theorem on_trade_updates_other_orders (p : Position) (data : OrderUpdate)
    (id : string)
    (Hother : id <> ou_id data) :
  let p' := match on_trade_updates p data with
            | Ok p' => p'
            | Raise _ p' => p'
            end in
  orders_filled_amount p' !! id = orders_filled_amount p !! id.
Proof.
  cbv zeta.
  unfold on_trade_updates, update_filled_amount, remove_pending_order.
  destruct (event data); try reflexivity.
  - destruct (ou_side data); cbn;
      (destruct (orders_filled_amount p !! ou_id data); cbn;
       [rewrite lookup_delete_ne by congruence; reflexivity | reflexivity]).
  - destruct (orders_filled_amount p !! ou_id data); [|reflexivity].
    destruct (_ >? _); [|reflexivity].
    destruct (ou_side data); cbn;
      rewrite lookup_insert_ne by congruence; reflexivity.
  - destruct (orders_filled_amount p !! ou_id data); [|reflexivity].
    destruct (ou_side data); cbn;
      rewrite lookup_delete_ne by congruence; reflexivity.
  - destruct (orders_filled_amount p !! ou_id data); [|reflexivity].
    destruct (ou_side data); cbn;
      rewrite lookup_delete_ne by congruence; reflexivity.
Qed.

Lemma on_trade_updates_other_orders_witness :
  orders_filled_amount
    (match on_trade_updates ledger_after_partial
             {| event := Canceled; ou_id := "o7"; ou_side := Sell;
                filled_qty := 0 |} with
     | Ok p' => p'
     | Raise _ p' => p'
     end) !! "o1" = Some 40.
Proof.
  rewrite (on_trade_updates_other_orders ledger_after_partial
             {| event := Canceled; ou_id := "o7"; ou_side := Sell;
                filled_qty := 0 |} "o1").
  - reflexivity.
  - cbn. discriminate.
Defined.

(** * Invariants of a run *)

Section Reachable.
Context {num : Type} `{!Number num}.

Lemma one_dict_init : one_dict (Quote_init (num := num)).
Proof.
  split; [apply all_alias_init|]. cbn. apply dom_singleton_L.
Qed.

Lemma one_dict_lookup (q : Quote num) :
  one_dict q -> is_Some (store q !! default_dict q).
Proof.
  intros [_ Hdom]. apply elem_of_dom. rewrite Hdom. set_solver.
Qed.

Lemma one_dict_dict_of (q : Quote num) (s : string) :
  one_dict q -> dict_of q s = store q !! default_dict q.
Proof.
  intros [Ha _]. unfold dict_of. rewrite all_alias_ref_of by exact Ha.
  reflexivity.
Qed.

Lemma one_dict_insert (q : Quote num) (s : string) (d : SymDict num) :
  one_dict q ->
  one_dict {| symbol_dict := <[s := ref_of q s]> (symbol_dict q);
              default_dict := default_dict q;
              store := <[ref_of q s := d]> (store q) |}.
Proof.
  intros [Ha Hdom]. split; [apply all_alias_insert, Ha|].
  cbn. rewrite dom_insert_L, Hdom, (all_alias_ref_of _ _ Ha). apply (idemp_L (∪)).
Qed.

Lemma one_dict_registered (st : State num) (s : string) :
  one_dict (quote st) -> one_dict (quote (registered st s)).
Proof.
  intros [Ha Hdom]. split; [apply all_alias_insert, Ha | exact Hdom].
Qed.

Lemma submits_on_level_change (s : string) (d : SymDict num)
    (data : QuoteData num) :
  submits (on_level_change s d data).2 = [].
Proof.
  unfold on_level_change.
  match goal with
  | |- context [if ?c then _ else _] => destruct c
  end; reflexivity.
Qed.

(** One message in a state with one dictionary: the handler returns, the
    state still has one dictionary, and the contents of the dictionary
    change as stated for the kind of message. *)
Lemma dispatch_shared (max_shares : Z) (st : State num) (m : message num)
    (d : SymDict num) :
  one_dict (quote st) ->
  store (quote st) !! default_dict (quote st) = Some d ->
  exists st' out d',
    dispatch max_shares st m = Some (st', out) /\
    one_dict (quote st') /\
    default_dict (quote st') = default_dict (quote st) /\
    store (quote st') !! default_dict (quote st') = Some d' /\
    match m with
    | OnQuote data =>
        let d0 := set_ask_size (asksize data) (set_bid_size (bidsize data) d) in
        (d', out) = (if level_change d0 data
                     then on_level_change (qd_symbol data) d0 data
                     else (d0, []))
    | OnTrade api data =>
        (traded d = true -> d' = d /\ out = []) /\
        (d' = d \/ (traded d = false /\ d' = set_traded true d)) /\
        (forall sd s p, In (PrintOrder sd s p) out -> d' = set_traded true d)
    | OnTradeUpdates _ => d' = d /\ out = []
    end.
Proof.
  intros Hone Hd. destruct m as [data|api data|data].
  - assert (Hds : dict_of (quote st) (qd_symbol data) = Some d)
      by (rewrite one_dict_dict_of by exact Hone; exact Hd).
    pose proof (update_eq _ _ _ Hds) as Hup. cbv zeta in Hup.
    assert (Hl : ref_of (quote st) (qd_symbol data) = default_dict (quote st))
      by (apply all_alias_ref_of, Hone).
    cbn [dispatch]. unfold on_quote. rewrite Hup. cbn [mbind option_bind].
    eexists _, _, _. split; [reflexivity|]. cbn [quote].
    split; [apply one_dict_insert, Hone|].
    split; [reflexivity|].
    split.
    { cbn [store default_dict]. rewrite Hl. apply lookup_insert_eq. }
    cbv zeta. symmetry. apply surjective_pairing.
  - assert (Hds : dict_of (quote st) (td_symbol data) = Some d)
      by (rewrite one_dict_dict_of by exact Hone; exact Hd).
    assert (Hl : ref_of (quote st) (td_symbol data) = default_dict (quote st))
      by (apply all_alias_ref_of, Hone).
    cbn [dispatch]. rewrite (on_trade_eq _ _ _ _ _ Hds). cbv zeta.
    assert (Hquiet : forall o : list (effect num),
      (forall sd s p, ~ In (PrintOrder sd s p) o) ->
      (traded d = true -> o = []) ->
      exists st' out d',
        Some (registered st (td_symbol data), o) = Some (st', out) /\
        one_dict (quote st') /\
        default_dict (quote st') = default_dict (quote st) /\
        store (quote st') !! default_dict (quote st') = Some d' /\
        (traded d = true -> d' = d /\ out = []) /\
        (d' = d \/ (traded d = false /\ d' = set_traded true d)) /\
        (forall sd s p, In (PrintOrder sd s p) out -> d' = set_traded true d)).
    { intros o Hno Hnil. eexists _, _, _. split; [reflexivity|].
      split; [apply one_dict_registered, Hone|].
      split; [reflexivity|]. split; [exact Hd|].
      split; [intros Ht; split; [reflexivity | exact (Hnil Ht)]|].
      split; [left; reflexivity|].
      intros sd s p Hin. destruct (Hno _ _ _ Hin). }
    assert (Htry : forall sd lim, traded d = false ->
      exists st' out d',
        Some (try_order api (registered st (td_symbol data)) (td_symbol data)
                (ref_of (quote st) (td_symbol data)) d sd lim)
          = Some (st', out) /\
        one_dict (quote st') /\
        default_dict (quote st') = default_dict (quote st) /\
        store (quote st') !! default_dict (quote st') = Some d' /\
        (traded d = true -> d' = d /\ out = []) /\
        (d' = d \/ (traded d = false /\ d' = set_traded true d)) /\
        (forall sd s p, In (PrintOrder sd s p) out -> d' = set_traded true d)).
    { intros sd lim Ht. unfold try_order.
      destruct (submit_order api (td_symbol data) sd lim) as [id|];
        [destruct (cancel_order api id)|].
      - eexists _, _, _. split; [reflexivity|]. cbn [quote].
        split; [apply (one_dict_insert (quote st)), Hone|].
        split; [reflexivity|].
        split.
        { cbn. rewrite Hl. apply lookup_insert_eq. }
        split; [intros Ht'; congruence|].
        split; [right; split; [exact Ht | reflexivity]|].
        intros; reflexivity.
      - apply Hquiet.
        + intros sd' s p [H|[H|[H|[]]]]; discriminate H.
        + intros Ht'; congruence.
      - apply Hquiet.
        + intros sd' s p [H|[H|[]]]; discriminate H.
        + intros Ht'; congruence. }
    destruct (traded d) eqn:Ht.
    { apply Hquiet; [intros sd s p [] | reflexivity]. }
    destruct (td_timestamp data <=? time d + debounce).
    { apply Hquiet; [intros sd s p [] | reflexivity]. }
    destruct (100 <=? td_size data); cycle 1.
    { apply Hquiet; [intros sd s p [] | reflexivity]. }
    destruct (buy_signal max_shares d (position st) data).
    { apply Htry. reflexivity. }
    destruct (sell_signal d (position st) data).
    { apply Htry. reflexivity. }
    apply Hquiet; [intros sd s p [] | reflexivity].
  - cbn [dispatch]. eexists _, _, _. split; [reflexivity|]. cbn [quote].
    split; [exact Hone|]. split; [reflexivity|]. split; [exact Hd|].
    split; reflexivity.
Qed.

Lemma on_level_change_fields (s : string) (d : SymDict num)
    (data : QuoteData num) :
  let d' := (on_level_change s d data).1 in
  bid d' = bidprice data /\ ask d' = askprice data /\
  prev_bid d' = bid d /\ prev_ask d' = ask d /\
  prev_spread d' = n_round 3 (n_sub (ask d) (bid d)) /\
  spread d' = n_round 3 (n_sub (askprice data) (bidprice data)) /\
  time d' = qd_timestamp data /\
  bid_size d' = bid_size d /\ ask_size d' = ask_size d /\
  ((n_eqb (n_round 3 (n_sub (ask d) (bid d))) n_cent = true /\
    traded d' = false /\ level_ct d' = level_ct d + 1) \/
   (n_eqb (n_round 3 (n_sub (ask d) (bid d))) n_cent = false /\
    traded d' = traded d /\ level_ct d' = level_ct d)).
Proof.
  cbv zeta. unfold on_level_change. cbn.
  destruct (n_eqb (n_round 3 (n_sub (ask d) (bid d))) n_cent) eqn:Hc; cbn;
    repeat split; auto.
Qed.

(** A property of the dictionary that quotes and the [traded = True] of an
    order keep holds along every run that starts with it. *)
Lemma run_dict_invariant (J : SymDict num -> Prop) (max_shares : Z) :
  (forall d data, J d ->
     let d0 := set_ask_size (asksize data) (set_bid_size (bidsize data) d) in
     J (if level_change d0 data
        then on_level_change (qd_symbol data) d0 data else (d0, [])).1) ->
  (forall d, J d -> J (set_traded true d)) ->
  forall (ms : list (message num)) (st : State num) (d : SymDict num),
    one_dict (quote st) ->
    store (quote st) !! default_dict (quote st) = Some d ->
    J d ->
    exists st' out d',
      run max_shares st ms = Some (st', out) /\
      one_dict (quote st') /\
      store (quote st') !! default_dict (quote st') = Some d' /\
      J d'.
Proof.
  intros HQ HT. induction ms as [|m ms IH]; intros st d Hone Hd HJ.
  - exists st, [], d. split; [reflexivity|]. split; [exact Hone|].
    split; [exact Hd | exact HJ].
  - destruct (dispatch_shared max_shares st m d Hone Hd)
      as (st1 & out1 & d1 & Hrun & Hone1 & _ & Hd1 & Hstep).
    assert (HJ1 : J d1).
    { destruct m as [data|api data|data].
      - cbv zeta in Hstep. specialize (HQ d data HJ). cbv zeta in HQ.
        rewrite <- Hstep in HQ. exact HQ.
      - destruct Hstep as (_ & [->|[_ ->]] & _); [exact HJ | exact (HT _ HJ)].
      - destruct Hstep as [-> _]. exact HJ. }
    destruct (IH st1 d1 Hone1 Hd1 HJ1) as (st2 & out2 & d2 & Hrun2 & H).
    exists st2, (out1 ++ out2), d2. split; [|exact H].
    cbn [run]. rewrite Hrun. cbn. rewrite Hrun2. reflexivity.
Qed.

(** X4: at the end of every run from the initial state (a run goes on
    after an order update that raised, in the state at the raise) the
    tracker still holds the single dictionary object created by
    [__init__]: every registered symbol refers to it, so any two symbols,
    registered or not, read the same bid, ask, sizes, flag and time.  No
    handler meets a symbol without a dictionary. *)
Theorem run_one_dictionary (max_shares : Z) (ms : list (message num)) :
  exists st out,
    run max_shares State_init ms = Some (st, out) /\
    dom (store (quote st)) = {[ default_dict (quote st) ]} /\
    (forall s l, symbol_dict (quote st) !! s = Some l ->
                 l = default_dict (quote st)) /\
    (forall s1 s2, is_Some (dict_of (quote st) s1) /\
                   dict_of (quote st) s1 = dict_of (quote st) s2).
Proof.
  destruct (run_dict_invariant (fun _ => True) max_shares
              ltac:(intros; exact I) ltac:(intros; exact I)
              ms State_init default_values one_dict_init eq_refl I)
    as (st & out & d & Hrun & Hone & Hd & _).
  exists st, out. split; [exact Hrun|].
  split; [apply Hone|]. split; [apply Hone|].
  intros s1 s2. rewrite !one_dict_dict_of by exact Hone.
  split; [eauto | reflexivity].
Qed.

(** X5: in every state that a run from the initial state reaches, a symbol
    is eligible ([traded] is false) only if the stored quote is one cent
    wide, [round(ask - bid, 2) == .01], and the level counter has been
    incremented at least once; the level counter is never below 1. *)
Theorem eligible_needs_one_cent_level (max_shares : Z)
    (ms : list (message num)) :
  exists st out,
    run max_shares State_init ms = Some (st, out) /\
    forall s, exists d,
      dict_of (quote st) s = Some d /\
      1 <= level_ct d /\
      (traded d = false ->
       n_eqb (n_round 2 (n_sub (ask d) (bid d))) n_cent = true /\
       2 <= level_ct d).
Proof.
  destruct (run_dict_invariant
              (fun d => 1 <= level_ct d /\
                 (traded d = false ->
                  n_eqb (n_round 2 (n_sub (ask d) (bid d))) n_cent = true /\
                  2 <= level_ct d))
              max_shares) with (ms := ms) (st := State_init (num := num))
              (d := default_values)
    as (st & out & d & Hrun & Hone & Hd & HJ).
  - intros d data [H1 H2]. cbv zeta.
    set (d0 := set_ask_size (asksize data) (set_bid_size (bidsize data) d)).
    destruct (level_change d0 data) eqn:Hlc; [|exact (conj H1 H2)].
    apply level_change_true in Hlc. destruct Hlc as (_ & _ & Hcent).
    pose proof (on_level_change_fields (qd_symbol data) d0 data) as Hf.
    cbv zeta in Hf.
    destruct Hf as (Hb & Ha & _ & _ & _ & _ & _ & _ & _ & Hcase).
    rewrite Hb, Ha.
    change (level_ct d0) with (level_ct d) in Hcase.
    change (traded d0) with (traded d) in Hcase.
    destruct Hcase as [(_ & Ht & Hl)|(_ & Ht & Hl)]; rewrite Hl, Ht.
    + split; [lia|]. intros _. split; [exact Hcent | lia].
    + split; [lia|]. intros Htd. split; [exact Hcent | apply H2, Htd].
  - intros d [H1 H2]. split; [exact H1|]. cbn. discriminate.
  - apply one_dict_init.
  - reflexivity.
  - cbn. split; [lia | discriminate].
  - exists st, out. split; [exact Hrun|]. intros s. exists d.
    rewrite one_dict_dict_of by exact Hone. split; [exact Hd | exact HJ].
Qed.

Lemma submits_app (o1 o2 : list (effect num)) :
  submits (o1 ++ o2) = submits o1 ++ submits o2.
Proof. unfold submits. apply List.filter_app. Qed.

Lemma eligible_of_traded (q : Quote num) (d : SymDict num) :
  one_dict q ->
  store q !! default_dict q = Some d ->
  traded d = true ->
  forall s, eligible q s = Some false.
Proof.
  intros Hone Hd Ht s. unfold eligible.
  rewrite one_dict_dict_of by exact Hone. rewrite Hd. cbn. rewrite Ht.
  reflexivity.
Qed.

(** While [traded] is set, trades and order updates print nothing, submit
    nothing and leave the dictionary as it is. *)
Lemma quote_free_run (max_shares : Z) :
  forall (ms : list (message num)) (st : State num) (d : SymDict num),
    one_dict (quote st) ->
    store (quote st) !! default_dict (quote st) = Some d ->
    traded d = true ->
    forallb (fun m => negb (is_quote m)) ms = true ->
    exists st',
      run max_shares st ms = Some (st', []) /\
      one_dict (quote st') /\
      store (quote st') !! default_dict (quote st') = Some d.
Proof.
  induction ms as [|m ms IH]; intros st d Hone Hd Ht Hfree.
  - exists st. split; [reflexivity|]. split; assumption.
  - cbn [forallb] in Hfree. apply andb_true_iff in Hfree.
    destruct Hfree as [Hm Hfree].
    destruct (dispatch_shared max_shares st m d Hone Hd)
      as (st1 & out1 & d1 & Hrun & Hone1 & _ & Hd1 & Hstep).
    assert (E : d1 = d /\ out1 = []).
    { destruct m as [data|api data|data].
      - discriminate Hm.
      - destruct Hstep as (H & _). exact (H Ht).
      - exact Hstep. }
    destruct E as [-> ->].
    destruct (IH st1 d Hone1 Hd1 Ht Hfree) as (st2 & Hrun2 & H).
    exists st2. split; [|exact H].
    cbn [run]. rewrite Hrun. cbn. rewrite Hrun2. reflexivity.
Qed.

Lemma no_quotes_forallb (ms : list (message num)) :
  length (List.filter is_quote ms) = 0%nat ->
  forallb (fun m => negb (is_quote m)) ms = true.
Proof.
  induction ms as [|m ms IH]; cbn; [reflexivity|].
  destruct (is_quote m); cbn; [discriminate | exact IH].
Qed.

(** X6: the first level change of a run cannot make a symbol eligible,
    because [prev_spread] is then computed from the default bid and ask.
    Provided [round(0 - 0, 3)] is not [.01], a run from the initial state
    with at most one quote message, and any trades and order updates,
    submits no order and ends with every symbol not eligible. *)
Theorem no_order_before_second_quote (max_shares : Z)
    (ms : list (message num))
    (Hzero : n_eqb (n_round 3 (n_sub n_zero n_zero)) n_cent = false)
    (Hquotes : (length (List.filter is_quote ms) <= 1)%nat) :
  exists st out,
    run max_shares State_init ms = Some (st, out) /\
    submits out = [] /\
    forall s, eligible (quote st) s = Some false.
Proof.
  assert (Hgen : forall (ms : list (message num)) (st : State num)
                        (d : SymDict num),
    one_dict (quote st) ->
    store (quote st) !! default_dict (quote st) = Some d ->
    bid d = n_zero -> ask d = n_zero -> traded d = true ->
    (length (List.filter is_quote ms) <= 1)%nat ->
    exists st' out d',
      run max_shares st ms = Some (st', out) /\
      submits out = [] /\
      one_dict (quote st') /\
      store (quote st') !! default_dict (quote st') = Some d' /\
      traded d' = true).
  { clear ms Hquotes.
    induction ms as [|m ms IH]; intros st d Hone Hd Hb Ha Ht Hq.
    - exists st, [], d. split; [reflexivity|]. split; [reflexivity|].
      split; [exact Hone|]. split; assumption.
    - destruct (dispatch_shared max_shares st m d Hone Hd)
        as (st1 & out1 & d1 & Hrun & Hone1 & _ & Hd1 & Hstep).
      destruct m as [data|api data|data].
      + cbn [List.filter is_quote length] in Hq.
        assert (Hfree : forallb (fun m => negb (is_quote m)) ms = true)
          by (apply no_quotes_forallb; lia).
        cbv zeta in Hstep.
        set (d0 := set_ask_size (asksize data)
                     (set_bid_size (bidsize data) d)) in *.
        assert (Hres : traded d1 = true /\ submits out1 = []).
        { destruct (level_change d0 data).
          - pose proof (on_level_change_fields (qd_symbol data) d0 data) as Hf.
            cbv zeta in Hf. rewrite <- Hstep in Hf. cbn [fst] in Hf.
            destruct Hf as (_ & _ & _ & _ & _ & _ & _ & _ & _ & Hcase).
            change (ask d0) with (ask d) in Hcase.
            change (bid d0) with (bid d) in Hcase.
            change (traded d0) with (traded d) in Hcase.
            rewrite Ha, Hb, Hzero in Hcase.
            destruct Hcase as [(Hc & _)|(_ & Htr & _)]; [discriminate Hc|].
            split; [congruence|].
            replace out1 with (on_level_change (qd_symbol data) d0 data).2
              by (rewrite <- Hstep; reflexivity).
            apply submits_on_level_change.
          - injection Hstep as -> ->. split; [exact Ht | reflexivity]. }
        destruct Hres as [Ht1 Hs1].
        destruct (quote_free_run max_shares ms st1 d1 Hone1 Hd1 Ht1 Hfree)
          as (st2 & Hrun2 & Hone2 & Hd2).
        exists st2, (out1 ++ []), d1.
        split; [cbn [run]; rewrite Hrun; cbn; rewrite Hrun2; reflexivity|].
        split; [rewrite app_nil_r; exact Hs1|].
        split; [exact Hone2|]. split; assumption.
      + destruct Hstep as (H & _). destruct (H Ht) as [-> ->].
        destruct (IH st1 d Hone1 Hd1 Hb Ha Ht Hq)
          as (st2 & out2 & d2 & Hrun2 & H2).
        exists st2, ([] ++ out2), d2. split; [|exact H2].
        cbn [run]. rewrite Hrun. cbn. rewrite Hrun2. reflexivity.
      + destruct Hstep as [-> ->].
        destruct (IH st1 d Hone1 Hd1 Hb Ha Ht Hq)
          as (st2 & out2 & d2 & Hrun2 & H2).
        exists st2, ([] ++ out2), d2. split; [|exact H2].
        cbn [run]. rewrite Hrun. cbn. rewrite Hrun2. reflexivity. }
  destruct (Hgen ms State_init default_values one_dict_init eq_refl
              eq_refl eq_refl eq_refl Hquotes)
    as (st & out & d & Hrun & Hsub & Hone & Hd & Ht).
  exists st, out. split; [exact Hrun|]. split; [exact Hsub|].
  exact (eligible_of_traded _ _ Hone Hd Ht).
Qed.

(** X7: after an order that was submitted, cancelled and entered in the
    ledger, no further order is submitted for any symbol until the next
    quote message arrives: the trades and order updates that follow print
    and submit nothing, and every symbol stays not eligible. *)
Theorem no_order_until_next_quote (max_shares : Z)
    (ms1 ms2 : list (message num)) (api : Api num) (data : TradeData num)
    (Hfree : forallb (fun m => negb (is_quote m)) ms2 = true) :
  exists st1 out1 st2 out2 st3 out3,
    run max_shares State_init ms1 = Some (st1, out1) /\
    on_trade max_shares api st1 data = Some (st2, out2) /\
    run max_shares st2 ms2 = Some (st3, out3) /\
    ((exists sd s p, In (PrintOrder sd s p) out2) ->
     out3 = [] /\ forall s, eligible (quote st3) s = Some false).
Proof.
  destruct (run_dict_invariant (fun _ => True) max_shares
              ltac:(intros; exact I) ltac:(intros; exact I)
              ms1 State_init default_values one_dict_init eq_refl I)
    as (st1 & out1 & d1 & Hrun1 & Hone1 & Hd1 & _).
  destruct (dispatch_shared max_shares st1 (OnTrade api data) d1 Hone1 Hd1)
    as (st2 & out2 & d2 & Hrun2 & Hone2 & _ & Hd2 & _ & _ & Hok).
  cbn [dispatch] in Hrun2.
  destruct (run_dict_invariant (fun _ => True) max_shares
              ltac:(intros; exact I) ltac:(intros; exact I)
              ms2 st2 d2 Hone2 Hd2 I)
    as (st3 & out3 & d3 & Hrun3 & _).
  exists st1, out1, st2, out2, st3, out3.
  split; [exact Hrun1|]. split; [exact Hrun2|]. split; [exact Hrun3|].
  intros (sd & s & p & Hin).
  assert (Ht2 : traded d2 = true) by (rewrite (Hok _ _ _ Hin); reflexivity).
  destruct (quote_free_run max_shares ms2 st2 d2 Hone2 Hd2 Ht2 Hfree)
    as (st3' & Hrun3' & Hone3 & Hd3).
  rewrite Hrun3 in Hrun3'. injection Hrun3' as -> ->.
  split; [reflexivity|]. exact (eligible_of_traded _ _ Hone3 Hd3 Ht2).
Qed.

End Reachable.

(** * Further properties of single calls *)

Section Calls.
Context {num : Type} `{!Number num}.

(** X8: [get_symbol_dict] is idempotent and only ever adds the requested
    symbol: the returned reference is stored under the symbol, a second
    call returns the same reference and changes nothing, no dictionary
    object is created or modified, and the other symbols keep their
    references. *)
Theorem get_symbol_dict_idempotent (q : Quote num) (symbol : string) :
  let '(l, q') := get_symbol_dict q symbol in
  symbol_dict q' !! symbol = Some l /\
  get_symbol_dict q' symbol = (l, q') /\
  store q' = store q /\
  default_dict q' = default_dict q /\
  (forall s, s <> symbol -> symbol_dict q' !! s = symbol_dict q !! s) /\
  (is_Some (symbol_dict q !! symbol) -> q' = q) /\
  (symbol_dict q !! symbol = None -> l = default_dict q).
Proof.
  unfold get_symbol_dict at 1.
  destruct (symbol_dict q !! symbol) as [l|] eqn:Hl.
  - split; [exact Hl|]. split; [unfold get_symbol_dict; rewrite Hl; reflexivity|].
    repeat split; try reflexivity. discriminate.
  - cbn. split; [apply lookup_insert_eq|].
    split.
    { unfold get_symbol_dict. cbn. rewrite lookup_insert_eq. reflexivity. }
    split; [reflexivity|]. split; [reflexivity|].
    split; [intros s Hs; apply lookup_insert_ne; congruence|].
    split; [intros [? ?]; discriminate | reflexivity].
Qed.

(** X9: the last statement of [Quote.update] passes a symbol's own
    dictionary to [update_symbol_dict]; updating a dictionary with itself
    changes nothing. *)
Theorem update_symbol_dict_self (q : Quote num) (symbol : string) (l : loc)
    (Hreg : symbol_dict q !! symbol = Some l)
    (Hobj : is_Some (store q !! l)) :
  update_symbol_dict q symbol l = Some q.
Proof.
  destruct Hobj as [d Hd]. unfold update_symbol_dict.
  rewrite Hd. cbn [mbind option_bind]. rewrite Hreg.
  unfold with_store. rewrite insert_id by exact Hd.
  destruct q; reflexivity.
Qed.

Lemma set_sizes_same (d : SymDict num) (b a : Z) :
  bid_size d = b -> ask_size d = a ->
  set_ask_size a (set_bid_size b d) = d.
Proof. intros <- <-. destruct d; reflexivity. Qed.

(** X10: a quote that is delivered twice is ignored the second time.  If
    the bid or the ask of the message is equal to itself (any number but a
    NaN), the second call of [update] with the same message detects no
    level change, prints nothing and leaves the tracker as the first call
    left it. *)
Theorem update_repeated_quote (q : Quote num) (data : QuoteData num)
    (d : SymDict num)
    (Hd : dict_of q (qd_symbol data) = Some d)
    (Hrefl : n_eqb (bidprice data) (bidprice data) = true \/
             n_eqb (askprice data) (askprice data) = true) :
  exists q1 out1,
    update q data = Some (q1, out1) /\
    update q1 data = Some (q1, []).
Proof.
  pose proof (update_eq q data d Hd) as Hup. cbv zeta in Hup.
  set (d0 := set_ask_size (asksize data) (set_bid_size (bidsize data) d)) in *.
  set (r := if level_change d0 data
            then on_level_change (qd_symbol data) d0 data else (d0, [])) in *.
  set (l := ref_of q (qd_symbol data)) in *.
  eexists _, _. split; [exact Hup|].
  assert (Hsz : bid_size r.1 = bidsize data /\ ask_size r.1 = asksize data).
  { subst r. destruct (level_change d0 data).
    - pose proof (on_level_change_fields (qd_symbol data) d0 data) as Hf.
      cbv zeta in Hf.
      destruct Hf as (_ & _ & _ & _ & _ & _ & _ & Hbs & Has & _).
      rewrite Hbs, Has. split; reflexivity.
    - split; reflexivity. }
  assert (Hlc : level_change r.1 data = false).
  { subst r. destruct (level_change d0 data) eqn:Hc.
    - pose proof (on_level_change_fields (qd_symbol data) d0 data) as Hf.
      cbv zeta in Hf. destruct Hf as (Hb & Ha & _).
      unfold level_change. rewrite Hb, Ha.
      destruct Hrefl as [-> | ->]; cbn; [reflexivity|].
      rewrite andb_false_r. reflexivity.
    - cbn [fst]. exact Hc. }
  assert (Hd1 : dict_of
                  {| symbol_dict := <[qd_symbol data := l]> (symbol_dict q);
                     default_dict := default_dict q;
                     store := <[l := r.1]> (store q) |} (qd_symbol data)
                = Some r.1).
  { unfold dict_of. subst l. rewrite ref_of_insert. cbn [store].
    apply lookup_insert_eq. }
  rewrite (update_eq _ _ _ Hd1). cbv zeta.
  destruct Hsz as [Hbs Has].
  rewrite (set_sizes_same _ _ _ Hbs Has), Hlc. cbn [fst snd].
  subst l. rewrite ref_of_insert. cbn [symbol_dict default_dict store].
  rewrite !insert_insert_eq. reflexivity.
Qed.

(** X11: when [update] clears [traded].  The flag is cleared, and
    [level_ct] incremented, exactly when the quote is a level change (both
    prices differ from the stored ones and [round(ask - bid, 2) == .01])
    and the spread of the stored bid and ask, rounded to 3 decimals, is
    [.01]; in every other case both keep their values.  After a level
    change [prev_spread] and [spread] are the 3-decimal roundings of the
    old and the new spread. *)
Theorem update_clears_traded_iff (q : Quote num) (data : QuoteData num)
    (d : SymDict num)
    (Hd : dict_of q (qd_symbol data) = Some d) :
  let changed :=
    n_eqb (bid d) (bidprice data) = false /\
    n_eqb (ask d) (askprice data) = false /\
    n_eqb (n_round 2 (n_sub (askprice data) (bidprice data))) n_cent = true in
  let rearm :=
    changed /\ n_eqb (n_round 3 (n_sub (ask d) (bid d))) n_cent = true in
  exists q' out d',
    update q data = Some (q', out) /\
    dict_of q' (qd_symbol data) = Some d' /\
    (rearm -> traded d' = false /\ level_ct d' = level_ct d + 1) /\
    (~ rearm -> traded d' = traded d /\ level_ct d' = level_ct d) /\
    (changed ->
     prev_spread d' = n_round 3 (n_sub (ask d) (bid d)) /\
     spread d' = n_round 3 (n_sub (askprice data) (bidprice data))).
Proof.
  cbv zeta. pose proof (update_eq q data d Hd) as Hup. cbv zeta in Hup.
  set (d0 := set_ask_size (asksize data) (set_bid_size (bidsize data) d)) in *.
  pose proof (level_change_true d0 data) as Hlc.
  change (bid d0) with (bid d) in Hlc. change (ask d0) with (ask d) in Hlc.
  eexists _, _, _. split; [exact Hup|].
  split.
  { unfold dict_of. rewrite ref_of_insert. cbn [store].
    apply lookup_insert_eq. }
  destruct (level_change d0 data) eqn:Hc.
  - pose proof (on_level_change_fields (qd_symbol data) d0 data) as Hf.
    cbv zeta in Hf.
    destruct Hf as (_ & _ & _ & _ & Hps & Hsp & _ & _ & _ & Hcase).
    change (ask d0) with (ask d) in *. change (bid d0) with (bid d) in *.
    change (traded d0) with (traded d) in Hcase.
    change (level_ct d0) with (level_ct d) in Hcase.
    assert (Hch := proj1 Hlc eq_refl).
    destruct Hcase as [(Hc3 & Ht & Hl)|(Hc3 & Ht & Hl)].
    + split; [intros _; split; assumption|].
      split; [intros Hn; exfalso; apply Hn; split; assumption|].
      intros _. split; assumption.
    + split; [intros [_ H3]; congruence|].
      split; [intros _; split; assumption|].
      intros _. split; assumption.
  - assert (Hn : ~ (n_eqb (bid d) (bidprice data) = false /\
                    n_eqb (ask d) (askprice data) = false /\
                    n_eqb (n_round 2 (n_sub (askprice data) (bidprice data)))
                      n_cent = true)).
    { intros H. apply Hlc in H. discriminate. }
    cbn [fst]. split; [intros [H _]; contradiction|].
    split; [intros _; split; reflexivity|].
    intros H; contradiction.
Qed.

(** What [try_order] does to the position and to the printed effects,
    by the answers of the gateway. *)
Lemma try_order_cases (api : Api num) (st : State num) (symbol : string)
    (l : loc) (d : SymDict num) (sd : side) (limit_price : num) :
  let r := try_order api st symbol l d sd limit_price in
  (submit_order api symbol sd limit_price = None /\
   r = (st, [SubmitOrder symbol sd 100 limit_price; PrintExn])) \/
  (exists id,
     submit_order api symbol sd limit_price = Some id /\
     cancel_order api id = false /\
     r = (st, [SubmitOrder symbol sd 100 limit_price; CancelOrder id;
               PrintExn])) \/
  (exists id,
     submit_order api symbol sd limit_price = Some id /\
     cancel_order api id = true /\
     r = ({| quote := with_store (<[l := set_traded true d]> (store (quote st)))
                        (quote st);
             position := register_order sd id (position st) |},
          [SubmitOrder symbol sd 100 limit_price; CancelOrder id;
           PrintOrder sd symbol limit_price])).
Proof.
  cbv zeta. unfold try_order.
  destruct (submit_order api symbol sd limit_price) as [id|];
    [destruct (cancel_order api id) eqn:Hc|].
  - right. right. exists id. repeat split. exact Hc.
  - right. left. exists id. repeat split. exact Hc.
  - left. split; reflexivity.
Qed.

(** X12: [on_trade] keeps the position within its bounds.  It never
    changes [total_shares]; it adds 100 to the pending buy shares only when
    total plus pending buy shares then stay below [max_shares], and 100 to
    the pending sell shares only when they then do not exceed
    [total_shares].  So both bounds, once true, survive every trade. *)
Theorem on_trade_keeps_bounds (max_shares : Z) (api : Api num)
    (st : State num) (data : TradeData num) (d : SymDict num)
    (Hd : dict_of (quote st) (td_symbol data) = Some d) :
  exists st' out,
    on_trade max_shares api st data = Some (st', out) /\
    let p := position st in
    let p' := position st' in
    total_shares p' = total_shares p /\
    (pending_buy_shares p' = pending_buy_shares p \/
     (pending_buy_shares p' = pending_buy_shares p + 100 /\
      total_shares p' + pending_buy_shares p' < max_shares)) /\
    (pending_sell_shares p' = pending_sell_shares p \/
     (pending_sell_shares p' = pending_sell_shares p + 100 /\
      0 <= total_shares p' - pending_sell_shares p')) /\
    (total_shares p + pending_buy_shares p < max_shares ->
     total_shares p' + pending_buy_shares p' < max_shares) /\
    (0 <= total_shares p - pending_sell_shares p ->
     0 <= total_shares p' - pending_sell_shares p').
Proof.
  rewrite (on_trade_eq _ _ _ _ _ Hd). cbv zeta.
  pose proof (buy_signal_true max_shares d (position st) data) as Hb.
  pose proof (sell_signal_true d (position st) data) as Hs.
  assert (Hquiet : forall o : list (effect num),
    exists st' out,
      Some (registered st (td_symbol data), o) = Some (st', out) /\
      total_shares (position st') = total_shares (position st) /\
      (pending_buy_shares (position st') = pending_buy_shares (position st) \/
       (pending_buy_shares (position st')
          = pending_buy_shares (position st) + 100 /\
        total_shares (position st') + pending_buy_shares (position st')
          < max_shares)) /\
      (pending_sell_shares (position st') = pending_sell_shares (position st) \/
       (pending_sell_shares (position st')
          = pending_sell_shares (position st) + 100 /\
        0 <= total_shares (position st') - pending_sell_shares (position st'))) /\
      (total_shares (position st) + pending_buy_shares (position st)
         < max_shares ->
       total_shares (position st') + pending_buy_shares (position st')
         < max_shares) /\
      (0 <= total_shares (position st) - pending_sell_shares (position st) ->
       0 <= total_shares (position st') - pending_sell_shares (position st'))).
  { intros o. eexists _, _. split; [reflexivity|]. cbn.
    split; [reflexivity|]. split; [left; reflexivity|].
    split; [left; reflexivity|]. split; intros H; exact H. }
  destruct (traded d); [apply Hquiet|].
  destruct (td_timestamp data <=? time d + debounce); [apply Hquiet|].
  destruct (100 <=? td_size data); [|apply Hquiet].
  destruct (buy_signal max_shares d (position st) data).
  { destruct (proj1 Hb eq_refl) as (_ & _ & Hcap).
    destruct (try_order_cases api (registered st (td_symbol data))
                (td_symbol data) (ref_of (quote st) (td_symbol data)) d Buy
                (ask d)) as [[_ ->]|[(id & _ & _ & ->)|(id & _ & _ & ->)]];
      try apply Hquiet.
    eexists _, _. split; [reflexivity|]. cbn.
    split; [reflexivity|]. split; [right; split; [reflexivity | lia]|].
    split; [left; reflexivity|]. split; intros H; lia. }
  destruct (sell_signal d (position st) data).
  { destruct (proj1 Hs eq_refl) as (_ & _ & Hcap).
    destruct (try_order_cases api (registered st (td_symbol data))
                (td_symbol data) (ref_of (quote st) (td_symbol data)) d Sell
                (bid d)) as [[_ ->]|[(id & _ & _ & ->)|(id & _ & _ & ->)]];
      try apply Hquiet.
    eexists _, _. split; [reflexivity|]. cbn.
    split; [reflexivity|]. split; [left; reflexivity|].
    split; [right; split; [reflexivity | lia]|]. split; intros H; lia. }
  apply Hquiet.
Qed.

(** X13: the smallest accepted [--quantity] never buys.  With
    [max_shares <= 100] and total plus pending buy shares not negative, no
    trade makes [on_trade] submit a buy order, whatever the quote and the
    book look like. *)
Theorem on_trade_minimum_quantity_never_buys (max_shares : Z) (api : Api num)
    (st : State num) (data : TradeData num) (d : SymDict num)
    (Hd : dict_of (quote st) (td_symbol data) = Some d)
    (Hmax : max_shares <= 100)
    (Hflat : 0 <= total_shares (position st)
                  + pending_buy_shares (position st)) :
  exists st' out,
    on_trade max_shares api st data = Some (st', out) /\
    ~ attempted Buy out /\
    pending_buy_shares (position st') = pending_buy_shares (position st).
Proof.
  rewrite (on_trade_eq _ _ _ _ _ Hd). cbv zeta.
  pose proof (buy_signal_true max_shares d (position st) data) as Hb.
  assert (Hquiet :
    exists st' out,
      Some (registered st (td_symbol data), @nil (effect num))
        = Some (st', out) /\
      ~ attempted Buy out /\
      pending_buy_shares (position st') = pending_buy_shares (position st)).
  { eexists _, _. split; [reflexivity|]. split; [|reflexivity].
    unfold attempted. cbn. discriminate. }
  destruct (traded d); [exact Hquiet|].
  destruct (td_timestamp data <=? time d + debounce); [exact Hquiet|].
  destruct (100 <=? td_size data); [|exact Hquiet].
  destruct (buy_signal max_shares d (position st) data).
  { destruct (proj1 Hb eq_refl) as (_ & _ & Hcap). lia. }
  destruct (sell_signal d (position st) data); [|exact Hquiet].
  eexists _, _. split; [apply f_equal, surjective_pairing|].
  split.
  - rewrite try_order_attempted. discriminate.
  - destruct (try_order_cases api (registered st (td_symbol data))
                (td_symbol data) (ref_of (quote st) (td_symbol data)) d Sell
                (bid d)) as [[_ ->]|[(id & _ & _ & ->)|(id & _ & _ & ->)]];
      reflexivity.
Qed.

(** X14: what [on_trade] does with the gateway.  Its effects are nothing,
    or one [submit_order] that raised, or one [submit_order] followed by
    [cancel_order] for exactly the id that the submit returned.  The order
    is entered in the ledger with amount 0, 100 pending shares are added
    and [traded] is set if and only if both calls returned; in every other
    case the position and the stored dictionaries are as before. *)
Theorem on_trade_gateway_protocol (max_shares : Z) (api : Api num)
    (st : State num) (data : TradeData num) (d : SymDict num)
    (Hd : dict_of (quote st) (td_symbol data) = Some d) :
  let s := td_symbol data in
  exists st' out,
    on_trade max_shares api st data = Some (st', out) /\
    ((out = [] /\ st' = registered st s) \/
     (exists sd p,
        submit_order api s sd p = None /\
        out = [SubmitOrder s sd 100 p; PrintExn] /\
        st' = registered st s) \/
     (exists sd p id,
        submit_order api s sd p = Some id /\
        cancel_order api id = false /\
        out = [SubmitOrder s sd 100 p; CancelOrder id; PrintExn] /\
        st' = registered st s) \/
     (exists sd p id,
        submit_order api s sd p = Some id /\
        cancel_order api id = true /\
        out = [SubmitOrder s sd 100 p; CancelOrder id; PrintOrder sd s p] /\
        position st' = register_order sd id (position st) /\
        orders_filled_amount (position st') !! id = Some 0 /\
        pending sd (position st') = pending sd (position st) + 100 /\
        dict_of (quote st') s = Some (set_traded true d) /\
        eligible (quote st') s = Some false)).
Proof.
  cbv zeta. rewrite (on_trade_eq _ _ _ _ _ Hd). cbv zeta.
  assert (Htry : forall sd lim,
    exists st' out,
      Some (try_order api (registered st (td_symbol data)) (td_symbol data)
              (ref_of (quote st) (td_symbol data)) d sd lim)
        = Some (st', out) /\
      ((out = [] /\ st' = registered st (td_symbol data)) \/
       (exists sd p,
          submit_order api (td_symbol data) sd p = None /\
          out = [SubmitOrder (td_symbol data) sd 100 p; PrintExn] /\
          st' = registered st (td_symbol data)) \/
       (exists sd p id,
          submit_order api (td_symbol data) sd p = Some id /\
          cancel_order api id = false /\
          out = [SubmitOrder (td_symbol data) sd 100 p; CancelOrder id;
                 PrintExn] /\
          st' = registered st (td_symbol data)) \/
       (exists sd p id,
          submit_order api (td_symbol data) sd p = Some id /\
          cancel_order api id = true /\
          out = [SubmitOrder (td_symbol data) sd 100 p; CancelOrder id;
                 PrintOrder sd (td_symbol data) p] /\
          position st' = register_order sd id (position st) /\
          orders_filled_amount (position st') !! id = Some 0 /\
          pending sd (position st') = pending sd (position st) + 100 /\
          dict_of (quote st') (td_symbol data) = Some (set_traded true d) /\
          eligible (quote st') (td_symbol data) = Some false))).
  { intros sd lim.
    destruct (try_order_cases api (registered st (td_symbol data))
                (td_symbol data) (ref_of (quote st) (td_symbol data)) d sd lim)
      as [[Hs ->]|[(id & Hs & Hc & ->)|(id & Hs & Hc & ->)]];
      eexists _, _; (split; [reflexivity|]).
    - right. left. exists sd, lim. repeat split. exact Hs.
    - right. right. left. exists sd, lim, id. repeat split; assumption.
    - right. right. right. exists sd, lim, id.
      assert (Hdict : dict_of
                (with_store
                   (<[ref_of (quote st) (td_symbol data) := set_traded true d]>
                      (store (quote (registered st (td_symbol data)))))
                   (quote (registered st (td_symbol data))))
                (td_symbol data) = Some (set_traded true d)).
      { rewrite dict_of_with_store, ref_of_registered.
        apply lookup_insert_eq. }
      split; [exact Hs|]. split; [exact Hc|]. split; [reflexivity|].
      split; [reflexivity|].
      split; [cbn; apply lookup_insert_eq|].
      split; [destruct sd; reflexivity|].
      split; [exact Hdict|].
      unfold eligible. cbn [quote]. rewrite Hdict. reflexivity. }
  assert (Hquiet :
    exists st' out,
      Some (registered st (td_symbol data), @nil (effect num))
        = Some (st', out) /\
      ((out = [] /\ st' = registered st (td_symbol data)) \/
       (exists sd p,
          submit_order api (td_symbol data) sd p = None /\
          out = [SubmitOrder (td_symbol data) sd 100 p; PrintExn] /\
          st' = registered st (td_symbol data)) \/
       (exists sd p id,
          submit_order api (td_symbol data) sd p = Some id /\
          cancel_order api id = false /\
          out = [SubmitOrder (td_symbol data) sd 100 p; CancelOrder id;
                 PrintExn] /\
          st' = registered st (td_symbol data)) \/
       (exists sd p id,
          submit_order api (td_symbol data) sd p = Some id /\
          cancel_order api id = true /\
          out = [SubmitOrder (td_symbol data) sd 100 p; CancelOrder id;
                 PrintOrder sd (td_symbol data) p] /\
          position st' = register_order sd id (position st) /\
          orders_filled_amount (position st') !! id = Some 0 /\
          pending sd (position st') = pending sd (position st) + 100 /\
          dict_of (quote st') (td_symbol data) = Some (set_traded true d) /\
          eligible (quote st') (td_symbol data) = Some false))).
  { eexists _, _. split; [reflexivity|]. left. split; reflexivity. }
  destruct (traded d); [exact Hquiet|].
  destruct (td_timestamp data <=? time d + debounce); [exact Hquiet|].
  destruct (100 <=? td_size data); [|exact Hquiet].
  destruct (buy_signal max_shares d (position st) data); [apply Htry|].
  destruct (sell_signal d (position st) data); [apply Htry | exact Hquiet].
Qed.

End Calls.

(** * The options of [run] *)

Lemma set_if_truthy_lookup (key key' : string) (v : option string)
    (opts : gmap string string) :
  set_if_truthy key v opts !! key' =
    if decide (key = key')
    then (if truthy v then v else opts !! key')
    else opts !! key'.
Proof.
  unfold set_if_truthy. destruct v as [s|]; cbn.
  - destruct (String.eqb s ""); cbn.
    + destruct (decide (key = key')); reflexivity.
    + rewrite lookup_insert. destruct (decide (key = key')); reflexivity.
  - destruct (decide (key = key')); reflexivity.
Qed.

(** X15: the endpoint that [run] configures.  An explicit, non-empty
    [--base-url] is passed on unchanged; without one, the paper-trading
    endpoint is chosen exactly when the key id starts with [PK], and
    otherwise no [base_url] is set.  The key id and the secret key are
    passed on unchanged when they are non-empty, and [opts] has no other
    keys. *)
Theorem run_opts_endpoint (args : Args) :
  let opts := run_opts args in
  (truthy (base_url args) = true -> opts !! "base_url" = base_url args) /\
  (truthy (base_url args) = false ->
   opts !! "base_url" =
     match key_id args with
     | Some k => if String.prefix "PK" k then Some paper_url else None
     | None => None
     end) /\
  opts !! "key_id" = (if truthy (key_id args) then key_id args else None) /\
  opts !! "secret_key"
    = (if truthy (secret_key args) then secret_key args else None) /\
  (forall key, is_Some (opts !! key) ->
     key = "key_id" \/ key = "secret_key" \/ key = "base_url").
Proof.
  cbv zeta. unfold run_opts.
  set (o2 := set_if_truthy "secret_key" (secret_key args)
               (set_if_truthy "key_id" (key_id args) ∅)).
  assert (Hk : o2 !! "key_id"
               = if truthy (key_id args) then key_id args else None).
  { subst o2. rewrite !set_if_truthy_lookup. cbn. rewrite lookup_empty.
    reflexivity. }
  assert (Hs : o2 !! "secret_key"
               = if truthy (secret_key args) then secret_key args else None).
  { subst o2. rewrite !set_if_truthy_lookup. cbn. rewrite lookup_empty.
    reflexivity. }
  assert (Hb : o2 !! "base_url" = None).
  { subst o2. rewrite !set_if_truthy_lookup. cbn. apply lookup_empty. }
  assert (Hdom : forall key, is_Some (o2 !! key) ->
                   key = "key_id" \/ key = "secret_key").
  { intros key. subst o2. rewrite !set_if_truthy_lookup.
    destruct (decide ("secret_key" = key)) as [<-|_]; [auto|].
    destruct (decide ("key_id" = key)) as [<-|_]; [auto|].
    rewrite lookup_empty. intros [? ?]; discriminate. }
  destruct (truthy (base_url args)) eqn:Hbt.
  - split.
    { intros _. rewrite set_if_truthy_lookup. cbn. rewrite Hbt. reflexivity. }
    split; [discriminate|].
    split; [rewrite set_if_truthy_lookup; cbn; exact Hk|].
    split; [rewrite set_if_truthy_lookup; cbn; exact Hs|].
    intros key. rewrite set_if_truthy_lookup.
    destruct (decide ("base_url" = key)) as [<-|_]; [auto|].
    intros H. destruct (Hdom _ H); auto.
  - split; [discriminate|].
    rewrite Hk.
    destruct (key_id args) as [k|] eqn:Hkid; cbn.
    + cbn [truthy] in Hk.
      destruct (String.eqb k "") eqn:Hek; rewrite ?Hek in Hk; cbn in Hk |- *.
      * apply String.eqb_eq in Hek. subst k. cbn.
        split; [intros _; exact Hb|]. split; [exact Hk|]. split; [exact Hs|].
        intros key H. destruct (Hdom _ H); auto.
      * destruct (String.prefix "PK" k).
        -- split; [intros _; apply lookup_insert_eq|].
           split; [rewrite lookup_insert_ne by discriminate; exact Hk|].
           split; [rewrite lookup_insert_ne by discriminate; exact Hs|].
           intros key. rewrite lookup_insert.
           destruct (decide ("base_url" = key)) as [<-|_]; [auto|].
           intros H. destruct (Hdom _ H); auto.
        -- split; [intros _; exact Hb|]. split; [exact Hk|].
           split; [exact Hs|].
           intros key H. destruct (Hdom _ H); auto.
    + split; [intros _; exact Hb|]. split; [exact Hk|]. split; [exact Hs|].
      intros key H. destruct (Hdom _ H); auto.
Qed.

(** * The further properties on decimal prices *)

Lemma no_order_before_second_quote_witness :
  exists st out,
    run 500 State_init
      [OnTrade api_ok trade_SNAP; OnQuote quote_A2; OnTrade api_ok trade_A]
      = Some (st, out) /\
    submits out = [].
Proof.
  destruct (no_order_before_second_quote 500
              [OnTrade api_ok trade_SNAP; OnQuote quote_A2;
               OnTrade api_ok trade_A])
    as (st & out & Hrun & Hsub & _).
  - vm_compute. reflexivity.
  - cbn. lia.
  - exists st, out. split; [exact Hrun | exact Hsub].
Defined.

Lemma no_order_until_next_quote_witness :
  exists st2 st3,
    on_trade 500 api_ok state_after_quotes trade_A
      = Some (st2, [SubmitOrder "A" Buy 100 (usd 10 1); CancelOrder "o1";
                    PrintOrder Buy "A" (usd 10 1)]) /\
    run 500 st2 [OnTrade api_ok trade_A;
                 OnTradeUpdates (partial_fill "o1" Buy 40);
                 OnTrade api_ok trade_A]
      = Some (st3, []).
Proof.
  destruct (no_order_until_next_quote 500
              [OnQuote quote_B; OnQuote quote_A1; OnQuote quote_A2]
              [OnTrade api_ok trade_A;
               OnTradeUpdates (partial_fill "o1" Buy 40);
               OnTrade api_ok trade_A]
              api_ok trade_A eq_refl)
    as (st1 & out1 & st2 & out2 & st3 & out3 & H1 & H2 & H3 & Himp).
  rewrite state_after_quotes_run in H1. injection H1 as <- <-.
  assert (Hout : out2 = [SubmitOrder "A" Buy 100 (usd 10 1); CancelOrder "o1";
                         PrintOrder Buy "A" (usd 10 1)]).
  { vm_compute in H2. injection H2 as _ <-. reflexivity. }
  subst out2.
  destruct Himp as [-> _].
  { exists Buy, "A", (usd 10 1). right. right. left. reflexivity. }
  exists st2, st3. split; [exact H2 | exact H3].
Defined.

Lemma update_symbol_dict_self_witness :
  let q := (get_symbol_dict (Quote_init (num := Z)) "A").2 in
  update_symbol_dict q "A" 1%positive = Some q.
Proof.
  cbv zeta.
  apply (update_symbol_dict_self
           (get_symbol_dict (Quote_init (num := Z)) "A").2 "A" 1%positive).
  - vm_compute. reflexivity.
  - exists default_values. vm_compute. reflexivity.
Defined.

Lemma update_repeated_quote_witness :
  exists q1 out1,
    update Quote_init quote_A1 = Some (q1, out1) /\
    update q1 quote_A1 = Some (q1, []).
Proof.
  apply (update_repeated_quote Quote_init quote_A1 default_values).
  - reflexivity.
  - left. vm_compute. reflexivity.
Defined.

Lemma update_clears_traded_iff_witness :
  exists q' out d',
    update (quote state_after_quotes)
      {| qd_symbol := "B"; bidprice := usd 10 1; askprice := usd 10 2;
         bidsize := 10; asksize := 20; qd_timestamp := msec 4000 |}
      = Some (q', out) /\
    dict_of q' "B" = Some d' /\
    traded d' = false /\ level_ct d' = 3.
Proof.
  destruct (update_clears_traded_iff (quote state_after_quotes)
              {| qd_symbol := "B"; bidprice := usd 10 1; askprice := usd 10 2;
                 bidsize := 10; asksize := 20; qd_timestamp := msec 4000 |}
              dict_after_quotes)
    as (q' & out & d' & Hup & Hd' & Hre & _).
  - vm_compute. reflexivity.
  - exists q', out, d'. split; [exact Hup|]. split; [exact Hd'|].
    apply Hre. vm_compute. repeat split.
Defined.

Lemma on_trade_keeps_bounds_witness :
  exists st' out,
    on_trade 500 api_ok state_after_quotes trade_A = Some (st', out) /\
    total_shares (position st') + pending_buy_shares (position st') < 500.
Proof.
  destruct (on_trade_keeps_bounds 500 api_ok state_after_quotes trade_A
              dict_after_quotes)
    as (st' & out & Hrun & _ & _ & _ & Hcap & _).
  - vm_compute. reflexivity.
  - exists st', out. split; [exact Hrun|]. apply Hcap. vm_compute. reflexivity.
Defined.

Lemma on_trade_minimum_quantity_never_buys_witness :
  exists st' out,
    on_trade 100 api_ok state_after_quotes trade_A = Some (st', out) /\
    ~ attempted Buy out.
Proof.
  destruct (on_trade_minimum_quantity_never_buys 100 api_ok
              state_after_quotes trade_A dict_after_quotes)
    as (st' & out & Hrun & Hno & _).
  - vm_compute. reflexivity.
  - lia.
  - vm_compute. discriminate.
  - exists st', out. split; [exact Hrun | exact Hno].
Defined.

Lemma on_trade_gateway_protocol_witness :
  exists st' out,
    on_trade 500 api_cancel_fails state_after_quotes trade_A
      = Some (st', out) /\
    (out = [] \/ exists e, In e out /\ is_submit Buy e || is_submit Sell e = true).
Proof.
  destruct (on_trade_gateway_protocol 500 api_cancel_fails state_after_quotes
              trade_A dict_after_quotes)
    as (st' & out & Hrun & Hcases).
  - vm_compute. reflexivity.
  - exists st', out. split; [exact Hrun|].
    destruct Hcases as [[-> _]|[(sd & p & _ & -> & _)|[(sd & p & id & _ & _ & -> & _)
                                |(sd & p & id & _ & _ & -> & _)]]].
    + left. reflexivity.
    + right. eexists. split; [left; reflexivity|]. destruct sd; reflexivity.
    + right. eexists. split; [left; reflexivity|]. destruct sd; reflexivity.
    + right. eexists. split; [left; reflexivity|]. destruct sd; reflexivity.
Defined.

(** * Where the orders come from *)

Section Orders.
Context {num : Type} `{!Number num}.

(** X16: on a book whose sizes are not negative the two signals of
    [on_trade] exclude each other, so testing the buy first never hides a
    sell.  The sizes are taken from 0 up to 2^50, the range in which the
    float product of the code decides as the exact product does. *)
Theorem signals_exclude_each_other (max_shares : Z) (d : SymDict num)
    (p : Position) (data : TradeData num)
    (Hbid : 0 <= bid_size d < 2 ^ 50)
    (Hask : 0 <= ask_size d < 2 ^ 50) :
  buy_signal max_shares d p data && sell_signal d p data = false.
Proof.
  destruct (buy_signal max_shares d p data) eqn:Hb; [|reflexivity].
  destruct (sell_signal d p data) eqn:Hs; [|reflexivity].
  apply buy_signal_true in Hb. apply sell_signal_true in Hs.
  destruct Hb as (_ & Hb & _). destruct Hs as (_ & Hs & _). lia.
Qed.

(** An order that [on_trade] submits is for the symbol of the trade, for
    100 shares, at the stored ask (buy) or bid (sell), and the symbol was
    eligible. *)
Lemma on_trade_submit_price (max_shares : Z) (api : Api num) (st : State num)
    (data : TradeData num) (d : SymDict num) (st' : State num)
    (out : list (effect num)) (s : string) (sd : side) (n : Z) (p : num) :
  dict_of (quote st) (td_symbol data) = Some d ->
  on_trade max_shares api st data = Some (st', out) ->
  In (SubmitOrder s sd n p) out ->
  traded d = false /\ s = td_symbol data /\ n = 100 /\
  p = match sd with Buy => ask d | Sell => bid d end.
Proof.
  intros Hd Hrun Hin. rewrite (on_trade_eq _ _ _ _ _ Hd) in Hrun.
  cbv zeta in Hrun. injection Hrun as Hrun.
  assert (Htry : forall sd' lim,
    (st', out) = try_order api (registered st (td_symbol data))
                   (td_symbol data) (ref_of (quote st) (td_symbol data))
                   d sd' lim ->
    s = td_symbol data /\ n = 100 /\ sd = sd' /\ p = lim).
  { intros sd' lim E.
    assert (Hin' : In (SubmitOrder s sd n p) (submits out)).
    { unfold submits. apply List.filter_In. split; [exact Hin|].
      destruct sd; reflexivity. }
    replace out with
      (try_order api (registered st (td_symbol data)) (td_symbol data)
         (ref_of (quote st) (td_symbol data)) d sd' lim).2 in Hin'
      by (rewrite <- E; reflexivity).
    rewrite try_order_submits in Hin'. destruct Hin' as [H|[]].
    injection H as <- <- <- <-. repeat split. }
  destruct (traded d) eqn:Ht.
  { injection Hrun as _ <-. destruct Hin. }
  destruct (td_timestamp data <=? time d + debounce).
  { injection Hrun as _ <-. destruct Hin. }
  destruct (100 <=? td_size data); cycle 1.
  { injection Hrun as _ <-. destruct Hin. }
  destruct (buy_signal max_shares d (position st) data).
  { symmetry in Hrun. destruct (Htry _ _ Hrun) as (-> & -> & -> & ->).
    repeat split. }
  destruct (sell_signal d (position st) data).
  { symmetry in Hrun. destruct (Htry _ _ Hrun) as (-> & -> & -> & ->).
    repeat split. }
  injection Hrun as _ <-. destruct Hin.
Qed.

(** X17: every order of a run is priced off a quote that was received.
    In a run from the initial state, each submitted order is for 100
    shares, and its limit price is the ask (for a buy) or the bid (for a
    sell) of a quote message of the run whose spread rounds to [.01]. *)
Theorem orders_priced_off_received_quotes (max_shares : Z)
    (ms : list (message num)) :
  exists st out,
    run max_shares State_init ms = Some (st, out) /\
    forall s sd n p,
      In (SubmitOrder s sd n p) out ->
      n = 100 /\
      exists data,
        In (OnQuote data) ms /\
        n_eqb (n_round 2 (n_sub (askprice data) (bidprice data))) n_cent
          = true /\
        p = match sd with Buy => askprice data | Sell => bidprice data end.
Proof.
  set (K := fun (pre : list (message num)) (d : SymDict num) =>
    traded d = true \/
    exists data,
      In (OnQuote data) pre /\
      n_eqb (n_round 2 (n_sub (askprice data) (bidprice data))) n_cent = true /\
      bid d = bidprice data /\ ask d = askprice data).
  assert (Hmono : forall pre m d, K pre d -> K (pre ++ [m]) d).
  { intros pre m d [Ht|(data & Hin & H)]; [left; exact Ht|].
    right. exists data. split; [apply in_or_app; left; exact Hin | exact H]. }
  assert (Hgen : forall (ms pre : list (message num)) (st : State num)
                        (d : SymDict num),
    one_dict (quote st) ->
    store (quote st) !! default_dict (quote st) = Some d ->
    K pre d ->
    exists st' out,
      run max_shares st ms = Some (st', out) /\
      forall s sd n p,
        In (SubmitOrder s sd n p) out ->
        n = 100 /\
        exists data,
          In (OnQuote data) (pre ++ ms) /\
          n_eqb (n_round 2 (n_sub (askprice data) (bidprice data))) n_cent
            = true /\
          p = match sd with Buy => askprice data | Sell => bidprice data end).
  { clear ms. induction ms as [|m ms IH]; intros pre st d Hone Hd HK.
    - exists st, []. split; [reflexivity|]. intros s sd n p [].
    - destruct (dispatch_shared max_shares st m d Hone Hd)
        as (st1 & out1 & d1 & Hrun & Hone1 & _ & Hd1 & Hstep).
      assert (HK1 : K (pre ++ [m]) d1).
      { destruct m as [data|api data|data].
        - cbv zeta in Hstep.
          set (d0 := set_ask_size (asksize data)
                       (set_bid_size (bidsize data) d)) in *.
          destruct (level_change d0 data) eqn:Hlc.
          + right. exists data. split; [apply in_or_app; right; left; reflexivity|].
            apply level_change_true in Hlc. destruct Hlc as (_ & _ & Hc).
            split; [exact Hc|].
            pose proof (on_level_change_fields (qd_symbol data) d0 data) as Hf.
            cbv zeta in Hf. rewrite <- Hstep in Hf. cbn [fst] in Hf.
            destruct Hf as (Hb & Ha & _). split; assumption.
          + injection Hstep as -> _. apply Hmono. exact HK.
        - destruct Hstep as (_ & [->|[_ ->]] & _).
          + apply Hmono. exact HK.
          + left. reflexivity.
        - destruct Hstep as [-> _]. apply Hmono. exact HK. }
      assert (Hout1 : forall s sd n p,
        In (SubmitOrder s sd n p) out1 ->
        n = 100 /\
        exists data,
          In (OnQuote data) pre /\
          n_eqb (n_round 2 (n_sub (askprice data) (bidprice data))) n_cent
            = true /\
          p = match sd with Buy => askprice data | Sell => bidprice data end).
      { intros s sd n p Hin. destruct m as [data|api data|data].
        - exfalso. cbv zeta in Hstep.
          assert (Hs : submits out1 = []).
          { destruct (level_change _ data).
            - replace out1 with
                (on_level_change (qd_symbol data)
                   (set_ask_size (asksize data)
                      (set_bid_size (bidsize data) d)) data).2
                by (rewrite <- Hstep; reflexivity).
              apply submits_on_level_change.
            - injection Hstep as _ ->. reflexivity. }
          assert (Hin' : In (SubmitOrder s sd n p) (submits out1)).
          { unfold submits. apply List.filter_In. split; [exact Hin|].
            destruct sd; reflexivity. }
          rewrite Hs in Hin'. destruct Hin'.
        - cbn [dispatch] in Hrun.
          assert (Hds : dict_of (quote st) (td_symbol data) = Some d)
            by (rewrite one_dict_dict_of by exact Hone; exact Hd).
          destruct (on_trade_submit_price _ _ _ _ _ _ _ _ _ _ _ Hds Hrun Hin)
            as (Ht & _ & -> & ->).
          split; [reflexivity|].
          destruct HK as [Ht'|(qd & Hq & Hc & Hb & Ha)]; [congruence|].
          exists qd. split; [exact Hq|]. split; [exact Hc|].
          destruct sd; assumption.
        - destruct Hstep as [_ ->]. destruct Hin. }
      destruct (IH (pre ++ [m]) st1 d1 Hone1 Hd1 HK1)
        as (st2 & out2 & Hrun2 & Hout2).
      exists st2, (out1 ++ out2).
      split; [cbn [run]; rewrite Hrun; cbn; rewrite Hrun2; reflexivity|].
      intros s sd n p Hin. apply in_app_or in Hin. destruct Hin as [Hin|Hin].
      + destruct (Hout1 _ _ _ _ Hin) as (Hn & data & Hq & H).
        split; [exact Hn|]. exists data. split; [|exact H].
        apply in_or_app. left. exact Hq.
      + destruct (Hout2 _ _ _ _ Hin) as (Hn & data & Hq & H).
        split; [exact Hn|]. exists data. split; [|exact H].
        rewrite <- app_assoc in Hq. exact Hq. }
  destruct (Hgen ms [] State_init default_values one_dict_init eq_refl)
    as (st & out & Hrun & Hout).
  { left. reflexivity. }
  exists st, out. split; [exact Hrun | exact Hout].
Qed.

End Orders.

Lemma signals_exclude_each_other_witness :
  buy_signal 500 dict_after_quotes Position_init trade_A
  && sell_signal dict_after_quotes Position_init trade_A = false.
Proof.
  apply (signals_exclude_each_other 500 dict_after_quotes Position_init trade_A).
  - cbn. lia.
  - cbn. lia.
Defined.
